(** * helper_scripts/analyze.py: aggregation of a kafka dump and
      reconstruction of inventory levels

    A shallow embedding of [analyze_kafka_dump], [create_inventory_graph]
    and [convert_timestamps].  Files are replaced by the values that
    [json.load] returns for them, the CSV writer by the list of rows it is
    given, and the plot by the list of [ax.step] calls. *)

From Stdlib Require Import ZArith String Ascii List Lia.
From stdpp Require Import base list gmap strings sorting.

(** ** Python values *)

(** The numbers of a JSON document are Python ints or floats.  The
    arithmetic of the script on them is kept abstract: [float_zero] is
    [float()], the default of [defaultdict(float)], [of_int] takes an int
    as a number, and [py_add], [py_sub], [py_mul] are [+], [-] and [*].
    No algebraic law is assumed, so that every result holds for IEEE
    doubles as well as for exact integers. *)
Class PyNumber (num : Type) := {
  float_zero : num;
  of_int : Z → num;
  py_add : num → num → num;
  py_sub : num → num → num;
  py_mul : num → num → num
}.

(** Exact integers are one instance; the examples run on it. *)
#[export] Instance Z_PyNumber : PyNumber Z := {|
  float_zero := 0%Z;
  of_int := λ z, z;
  py_add := Z.add;
  py_sub := Z.sub;
  py_mul := Z.mul
|}.

(** A naive [datetime] is a point on one time line; it is kept as the
    number of microseconds since [datetime.min]. *)
Abbreviation datetime := Z (only parsing).

(** The exceptions the modelled code can raise. *)
Inductive exn : Type :=
  | ValueError    (* strptime: the string does not match the format *)
  | KeyError      (* d[k] on a plain dict without k *)
  | IndexError.   (* l[i] with i out of range *)

(** A computation returns, raises, or (for the loop only) runs out of the
    iteration budget of the model. *)
Inductive result (A : Type) : Type :=
  | Done (a : A)
  | Raise (e : exn)
  | OutOfFuel.
Arguments Done {A} a.
Arguments Raise {A} e.
Arguments OutOfFuel {A}.

#[export] Instance result_ret : MRet result := λ A a, Done a.
#[export] Instance result_bind : MBind result := λ A B f m,
  match m with
  | Done a => f a
  | Raise e => Raise e
  | OutOfFuel => OutOfFuel
  end.

(** [for x in l: f(x)], collecting what the calls return; the first
    exception ends the loop. *)
Fixpoint for_each {A B} (f : A → result B) (l : list A) : result (list B) :=
  match l with
  | [] => Done []
  | x :: l' => y ← f x; ys ← for_each f l'; Done (y :: ys)
  end.

(** [l[i]] for an index that is not negative. *)
Definition py_index {A} (l : list A) (i : nat) : result A :=
  match l !! i with
  | Some x => Done x
  | None => Raise IndexError
  end.

(** A plain [dict] with string keys keeps its items in insertion order:
    an association list, read at the first item of the key. *)
Fixpoint dict_get {V} (d : list (string * V)) (k : string) : option V :=
  match d with
  | [] => None
  | (k', v) :: d' => if decide (k = k') then Some v else dict_get d' k
  end.

(** [d[k]] *)
Definition dict_getitem {V} (d : list (string * V)) (k : string) : result V :=
  match dict_get d k with
  | Some v => Done v
  | None => Raise KeyError
  end.

(** Iterating a dict yields its keys. *)
Definition dict_keys {V} (d : list (string * V)) : list string := d.*1.

(** [sorted(l, key=key)]: stable, ascending in [key]. *)
Fixpoint insert_sorted {A} (le : A → A → bool) (x : A) (l : list A) : list A :=
  match l with
  | [] => [x]
  | y :: l' => if le x y then x :: y :: l' else y :: insert_sorted le x l'
  end.

Definition py_sorted {A K} (le : K → K → bool) (key : A → K) (l : list A)
  : list A :=
  foldr (insert_sorted (λ a b, le (key a) (key b))) [] l.

(** What [dict.get] returns is compared by [<]: strings by code points.
    [None] is never compared with a string here, since every key that is
    sorted is a key of the dict. *)
Definition name_le (a b : option string) : bool :=
  match a, b with
  | Some x, Some y => String.leb x y
  | None, _ => true
  | Some _, None => false
  end.

(** ** Events *)

(** One JSON object of a kafka topic.  The script reads [merchant_id],
    [amount], [price], [http_code] and [timestamp] of a [buyOffer] event,
    [merchant_id], [amount], [billing_amount] and [timestamp] of a
    [producer] event, and [merchant_id] and [cost] of a [holding_cost]
    event.  [T] is the type of the time stamp: a [string] as loaded, a
    [datetime] once [convert_timestamps] has run. *)
Record event {num T : Type} := Event {
  merchant_id : string;
  amount : Z;
  price : num;
  cost : num;
  billing_amount : num;
  http_code : Z;
  timestamp : T
}.
Arguments event : clear implicits.
Arguments Event {num T}.

Definition set_timestamp {num T U} (ev : event num T) (t : U) : event num U :=
  Event (merchant_id ev) (amount ev) (price ev) (cost ev)
        (billing_amount ev) (http_code ev) t.

(** ** The financial summary: [analyze_kafka_dump], lines 24-49 *)

(** A row given to [csv.writer.writerow]. *)
Inductive csv_row {num : Type} : Type :=
  | header (columns : list string)
  | row (name : string) (r h o p : num).
Arguments csv_row : clear implicits.

Section aggregation.
Context `{PyNumber num} {T : Type}.

(** [d[k]] on a [defaultdict(float)]: a missing key is inserted with
    [float()] and that value is returned. *)
Definition dd_getitem (d : gmap string num) (k : string)
  : num * gmap string num :=
  match d !! k with
  | Some v => (v, d)
  | None => (float_zero, <[k := float_zero]> d)
  end.

(** [d[k] += v] *)
Definition dd_iadd (d : gmap string num) (k : string) (v : num)
  : gmap string num :=
  let '(x, d') := dd_getitem d k in <[k := py_add x v]> d'.

(** [for event in events: d[event['merchant_id']] += value(event)] *)
Definition sum_into (value : event num T → num) (d : gmap string num)
    (events : list (event num T)) : gmap string num :=
  foldl (λ d ev, dd_iadd d (merchant_id ev) (value ev)) d events.

(** [event['amount'] * event['price']] *)
Definition purchase_value (ev : event num T) : num :=
  py_mul (of_int (amount ev)) (price ev).

(** Lines 26-29, 31-34 and 36-39. *)
Definition revenue_of (buyOffer : list (event num T)) : gmap string num :=
  sum_into purchase_value ∅ buyOffer.

Definition holding_cost_of (holding : list (event num T)) : gmap string num :=
  sum_into cost ∅ holding.

Definition order_cost_of (producer : list (event num T)) : gmap string num :=
  sum_into billing_amount ∅ producer.

(** The three accumulators. *)
Record dicts := Dicts {
  revenue : gmap string num;
  holding_cost : gmap string num;
  order_cost : gmap string num
}.

(** Lines 41-42: one item of the dict comprehension.  The three reads
    go through [defaultdict.__getitem__]. *)
Definition profit_item (st : dicts * gmap string num) (merchant : string)
  : dicts * gmap string num :=
  let '(r, rev) := dd_getitem (revenue st.1) merchant in
  let '(h, hold) := dd_getitem (holding_cost st.1) merchant in
  let '(o, ord) := dd_getitem (order_cost st.1) merchant in
  (Dicts rev hold ord, <[merchant := py_sub (py_sub r h) o]> st.2).

Definition profit_of (ds : dicts) (mapping : list (string * string))
  : dicts * gmap string num :=
  foldl profit_item (ds, ∅) (dict_keys mapping).

(** Lines 47-49: the rows, in the order of the names. *)
Fixpoint write_rows (mapping : list (string * string))
    (profit : gmap string num) (ds : dicts) (merchants : list string)
  : result (list (csv_row num)) :=
  match merchants with
  | [] => Done []
  | merchant :: rest =>
      name ← dict_getitem mapping merchant;
      let '(r, rev) := dd_getitem (revenue ds) merchant in
      let '(h, hold) := dd_getitem (holding_cost ds) merchant in
      let '(o, ord) := dd_getitem (order_cost ds) merchant in
      p ← match profit !! merchant with
          | Some p => Done p
          | None => Raise KeyError
          end;
      rows ← write_rows mapping profit (Dicts rev hold ord) rest;
      Done (row name r h o p :: rows)
  end.

(** Lines 24-49: what is written to [results.csv]. *)
Definition results_csv (mapping : list (string * string))
    (buyOffer holding producer : list (event num T))
  : result (list (csv_row num)) :=
  let ds := Dicts (revenue_of buyOffer) (holding_cost_of holding)
                  (order_cost_of producer) in
  let '(ds, profit) := profit_of ds mapping in
  rows ← write_rows mapping profit ds
           (py_sorted name_le (dict_get mapping) (dict_keys mapping));
  Done (header ["name"; "revenue"; "holding_cost"; "order_cost"; "profit"]
        :: rows).

(** *** Reference sums *)

(** The events of one merchant, in the order of the dump. *)
Definition events_of (merchant : string) (events : list (event num T))
  : list (event num T) :=
  filter (λ ev, merchant_id ev = merchant) events.

(** The sum of a field over the events of a merchant, added up in the
    order of the dump from [float()]. *)
Definition total (value : event num T → num) (merchant : string)
    (events : list (event num T)) : num :=
  foldl py_add float_zero (value <$> events_of merchant events).

(** The row of a merchant as the summary defines it. *)
Definition summary_row (mapping : list (string * string))
    (buyOffer holding producer : list (event num T)) (merchant : string)
  : csv_row num :=
  let r := total purchase_value merchant buyOffer in
  let h := total cost merchant holding in
  let o := total billing_amount merchant producer in
  row (default EmptyString (dict_get mapping merchant)) r h o
      (py_sub (py_sub r h) o).

(** *** Reads

    What [d[k]] returns on a [defaultdict(float)], apart from the insertion. *)
Definition dd_read (d : gmap string num) (k : string) : num :=
  default float_zero (d !! k).

(** Two states of the three dicts that read alike. *)
Definition same_reads (ds ds' : dicts) : Prop :=
  ∀ k, dd_read (revenue ds) k = dd_read (revenue ds') k
       ∧ dd_read (holding_cost ds) k = dd_read (holding_cost ds') k
       ∧ dd_read (order_cost ds) k = dd_read (order_cost ds') k.

Definition profit_value (ds : dicts) (m : string) : num :=
  py_sub (py_sub (dd_read (revenue ds) m) (dd_read (holding_cost ds) m))
         (dd_read (order_cost ds) m).

End aggregation.

(** ** The inventory levels: [create_inventory_graph], lines 56-92 *)

(** The branch of the loop body that appended a change. *)
Inductive branch : Type :=
  | sales_exhausted    (* line 70: [if sale_index >= len(sales)] *)
  | orders_exhausted   (* line 74: [elif order_index >= len(orders)] *)
  | order_first        (* line 78: [elif order.timestamp <= sale.timestamp] *)
  | sale_first.        (* line 82: [else] *)

Inductive origin : Type := replenishment | purchase.

Definition origin_of (b : branch) : origin :=
  match b with
  | sales_exhausted | order_first => replenishment
  | orders_exhausted | sale_first => purchase
  end.

#[export] Instance origin_eq_dec : EqDecision origin.
Proof. solve_decision. Defined.
#[export] Instance branch_eq_dec : EqDecision branch.
Proof. solve_decision. Defined.

(** One [append] of the loop: the merchant whose list grows and the pair
    that is appended, with the branch that did it. *)
Record delta := Delta {
  taken : branch;
  entity_id : string;
  at_time : datetime;
  change : Z
}.

(** [d[k].append(v)] on a [defaultdict(list)]: the list of a new key
    starts empty, and the key goes to the end of the dict. *)
Fixpoint dd_append {V} (d : list (string * list V)) (k : string) (v : V)
  : list (string * list V) :=
  match d with
  | [] => [(k, [v])]
  | (k', l) :: d' =>
      if decide (k = k') then (k', l ++ [v]) :: d'
      else (k', l) :: dd_append d' k v
  end.

(** The variables of the loop.  [merged] is not a variable of the script:
    it records the appends in the order they happen. *)
Record loop_state := LoopState {
  sale_index : nat;
  order_index : nat;
  inventory_progressions : list (string * list (datetime * Z));
  merged : list delta
}.

(** [itertools.accumulate] *)
Fixpoint accumulate_from (acc : Z) (l : list Z) : list Z :=
  match l with
  | [] => []
  | x :: l' => (acc + x)%Z :: accumulate_from (acc + x)%Z l'
  end.

Definition accumulate (l : list Z) : list Z :=
  match l with
  | [] => []
  | x :: l' => x :: accumulate_from x l'
  end.

(** Line 90, the unzipping of the pairs into [dates] and
    [inventory_changes]: the unpacking fails when there is no pair. *)
Definition unzip_pairs (pairs : list (datetime * Z))
  : result (list datetime * list Z) :=
  match pairs with
  | [] => Raise ValueError
  | _ => Done (pairs.*1, pairs.*2)
  end.

(** One call [ax.step(dates, inventory_levels, where='post', label=...)]. *)
Record step_call := StepCall {
  dates : list datetime;
  inventory_levels : list Z;
  label : string
}.

Section inventory.
Context {num : Type}.

(** [datetime.datetime.strptime(s, '%Y-%m-%dT%H:%M:%S.%fZ')] is a function
    of the standard library: [None] stands for its [ValueError]. *)
Variable strptime : string → option datetime.

(** Lines 164-167. *)
Definition convert_timestamps (events : list (event num string))
  : result (list (event num datetime)) :=
  for_each (λ ev, match strptime (timestamp ev) with
                  | Some t => Done (set_timestamp ev t)
                  | None => Raise ValueError
                  end) events.

(** Lines 71-73 and 79-81. *)
Definition append_order (b : branch) (order : event num datetime)
    (st : loop_state) : loop_state :=
  LoopState (sale_index st) (S (order_index st))
    (dd_append (inventory_progressions st) (merchant_id order)
       (timestamp order, amount order))
    (merged st ++
       [Delta b (merchant_id order) (timestamp order) (amount order)]).

(** Lines 75-77 and 83-85. *)
Definition append_sale (b : branch) (sale : event num datetime)
    (st : loop_state) : loop_state :=
  LoopState (S (sale_index st)) (order_index st)
    (dd_append (inventory_progressions st) (merchant_id sale)
       (timestamp sale, (-1 * amount sale)%Z))
    (merged st ++
       [Delta b (merchant_id sale) (timestamp sale) (-1 * amount sale)%Z]).

(** Line 69. *)
Definition loop_cond (sales orders : list (event num datetime))
    (st : loop_state) : bool :=
  bool_decide (sale_index st < length sales)
  && bool_decide (order_index st < length orders).

(** Lines 70-85. *)
Definition loop_body (sales orders : list (event num datetime))
    (st : loop_state) : result loop_state :=
  if decide (length sales ≤ sale_index st) then
    order ← py_index orders (order_index st);
    Done (append_order sales_exhausted order st)
  else if decide (length orders ≤ order_index st) then
    sale ← py_index sales (sale_index st);
    Done (append_sale orders_exhausted sale st)
  else
    o ← py_index orders (order_index st);
    s ← py_index sales (sale_index st);
    if decide (timestamp o ≤ timestamp s)%Z then
      order ← py_index orders (order_index st);
      Done (append_order order_first order st)
    else
      sale ← py_index sales (sale_index st);
      Done (append_sale sale_first sale st).

(** Lines 69-85, for at most [fuel] iterations. *)
Fixpoint merge_loop (fuel : nat) (sales orders : list (event num datetime))
    (st : loop_state) : result loop_state :=
  if loop_cond sales orders st then
    match fuel with
    | 0 => OutOfFuel
    | S fuel' =>
        st' ← loop_body sales orders st;
        merge_loop fuel' sales orders st'
    end
  else Done st.

(** Lines 65-85.  Every iteration advances one of the two indexes, so
    [len(sales) + len(orders)] iterations are enough. *)
Definition merge (sales orders : list (event num datetime))
  : result loop_state :=
  merge_loop (length sales + length orders) sales orders
    (LoopState 0 0 [] []).

(** Lines 90-91. *)
Definition inventory_series (pairs : list (datetime * Z))
  : result (list datetime * list Z) :=
  '(dates, inventory_changes) ← unzip_pairs pairs;
  Done (dates, accumulate inventory_changes).

(** Lines 89-92: one iteration.  [inventory_progressions[merchant_id]] is
    read for a key of the dict; the default of [defaultdict(list)] stands
    for a key that is missing. *)
Definition plot_merchant (merchant_id_mapping : list (string * string))
    (inventory_progressions : list (string * list (datetime * Z)))
    (merchant_id : string) : result step_call :=
  '(dates, inventory_levels) ←
    inventory_series (default [] (dict_get inventory_progressions merchant_id));
  label ← dict_getitem merchant_id_mapping merchant_id;
  Done (StepCall dates inventory_levels label).

(** Lines 60-64: the two lists the loop runs on. *)
Definition merge_input (sales orders : list (event num string))
  : result (list (event num datetime) * list (event num datetime)) :=
  let sales := filter (λ sale, http_code sale = 200%Z) sales in
  sales ← convert_timestamps sales;
  orders ← convert_timestamps orders;
  Done (sales, orders).

(** Lines 56-92: the series that are plotted. *)
Definition create_inventory_graph (merchant_id_mapping : list (string * string))
    (sales orders : list (event num string)) : result (list step_call) :=
  '(sales, orders) ← merge_input sales orders;
  st ← merge sales orders;
  for_each (plot_merchant merchant_id_mapping (inventory_progressions st))
    (dict_keys (inventory_progressions st)).

End inventory.

(** Lines 23-51.  The price graph of line 53 is not modelled. *)
Definition analyze_kafka_dump `{PyNumber num}
    (strptime : string → option datetime)
    (merchant_id_mapping : list (string * string))
    (buyOffer holding producer : list (event num string))
  : result (list (csv_row num) * list step_call) :=
  rows ← results_csv merchant_id_mapping buyOffer holding producer;
  calls ← create_inventory_graph strptime merchant_id_mapping buyOffer producer;
  Done (rows, calls).

(** ** Reference notions for the merge *)

(** The pair that the loop appends for an order, and for a sale. *)
Definition order_change {num} (order : event num datetime) : string * datetime * Z :=
  (merchant_id order, timestamp order, amount order).

Definition sale_change {num} (sale : event num datetime) : string * datetime * Z :=
  (merchant_id sale, timestamp sale, (-1 * amount sale)%Z).

Definition triple (d : delta) : string * datetime * Z :=
  (entity_id d, at_time d, change d).

(** The merged sequence restricted to one origin. *)
Definition from_origin (o : origin) (log : list delta) : list delta :=
  filter (λ d, origin_of (taken d) = o) log.

(** The partition of the merged sequence of one entity. *)
Definition partition_of (e : string) (log : list delta) : list (datetime * Z) :=
  (λ d, (at_time d, change d)) <$> filter (λ d, entity_id d = e) log.

(** Ascending time stamps. *)
Definition ascending (ts : list datetime) : Prop :=
  ∀ i j a b, i ≤ j → ts !! i = Some a → ts !! j = Some b → (a ≤ b)%Z.

Definition sorted_by_timestamp {num} (events : list (event num datetime)) : Prop :=
  ascending (timestamp <$> events).

Fixpoint sum_Z (l : list Z) : Z :=
  match l with
  | [] => 0
  | x :: l' => x + sum_Z l'
  end%Z.

(** An event with its time stamp parsed. *)
Definition parsed {num} (strptime : string → option datetime)
    (ev : event num string) : event num datetime :=
  set_timestamp ev (default 0%Z (strptime (timestamp ev))).

(** The purchases that took effect. *)
Definition successful {num T} (events : list (event num T))
  : list (event num T) :=
  filter (λ sale, http_code sale = 200%Z) events.

(** The dict of the loop holds, for every entity, its partition of the
    merged sequence, and no key for an entity without a change. *)
Definition dict_tracks (ip : list (string * list (datetime * Z)))
    (log : list delta) : Prop :=
  ∀ e, dict_get ip e =
       match partition_of e log with
       | [] => None
       | pairs => Some pairs
       end.

(** What holds of the variables of the loop before and after every
    iteration, whatever the inputs are. *)
Record merge_inv {num} (sales orders : list (event num datetime))
    (st : loop_state) : Prop := MergeInv {
  inv_sale_index : sale_index st ≤ length sales;
  inv_order_index : order_index st ≤ length orders;
  inv_orders :
    triple <$> from_origin replenishment (merged st)
    = take (order_index st) (order_change <$> orders);
  inv_sales :
    triple <$> from_origin purchase (merged st)
    = take (sale_index st) (sale_change <$> sales);
  inv_branches :
    Forall (λ d, taken d = order_first ∨ taken d = sale_first) (merged st);
  inv_dict : dict_tracks (inventory_progressions st) (merged st);
  inv_length : length (merged st) = sale_index st + order_index st
}.

(** What holds in addition when both inputs are sorted. *)
Record sorted_inv {num} (sales orders : list (event num datetime))
    (st : loop_state) : Prop := SortedInv {
  inv_ascending : ascending (at_time <$> merged st);
  inv_below_orders : ∀ d o k,
    d ∈ merged st → order_index st ≤ k → orders !! k = Some o →
    (at_time d ≤ timestamp o)%Z;
  inv_below_sales : ∀ d s k,
    d ∈ merged st → sale_index st ≤ k → sales !! k = Some s →
    (at_time d ≤ timestamp s)%Z;
  inv_sale_below_orders : ∀ d o k,
    d ∈ merged st → origin_of (taken d) = purchase →
    order_index st ≤ k → orders !! k = Some o →
    (at_time d < timestamp o)%Z;
  inv_sale_then_order : ∀ p q a b,
    p < q → merged st !! p = Some a → merged st !! q = Some b →
    origin_of (taken a) = purchase → origin_of (taken b) = replenishment →
    (at_time a < at_time b)%Z
}.

(** ** A parser for the examples *)

(** The dumps carry time stamps such as [2018-05-01T10:00:00.250Z].  The
    examples read them with [strptime_utc], which accepts the zero-padded
    form with one to six digits of fraction and nothing else. *)
Definition digit_of (c : ascii) : option Z :=
  let n := nat_of_ascii c in
  if bool_decide (48 ≤ n ≤ 57) then Some (Z.of_nat (n - 48)) else None.

Fixpoint digits (n : nat) (l : list ascii) : option (Z * list ascii) :=
  match n, l with
  | 0, _ => Some (0%Z, l)
  | S n', c :: l' =>
      d ← digit_of c;
      '(v, rest) ← digits n' l';
      Some ((d * 10 ^ Z.of_nat n' + v)%Z, rest)
  | S _, [] => None
  end.

Definition expect (c : ascii) (l : list ascii) : option (list ascii) :=
  match l with
  | c' :: l' => if decide (c = c') then Some l' else None
  | [] => None
  end.

(** At most [n] more digits of the fraction, then the final Z. *)
Fixpoint fraction (n : nat) (acc : Z) (l : list ascii) : option Z :=
  match l with
  | [] => None
  | [c] => if decide (c = "Z"%char) then Some (acc * 10 ^ Z.of_nat n)%Z else None
  | c :: l' =>
      match n with
      | 0 => None
      | S n' => d ← digit_of c; fraction n' (acc * 10 + d)%Z l'
      end
  end.

Definition is_leap (y : Z) : bool :=
  ((y mod 4 =? 0) && (negb (y mod 100 =? 0) || (y mod 400 =? 0)))%Z.

Definition days_in_month (y m : Z) : Z :=
  if bool_decide (m ∈ [1; 3; 5; 7; 8; 10; 12]%Z) then 31
  else if bool_decide (m ∈ [4; 6; 9; 11]%Z) then 30
  else if bool_decide (m = 2%Z) then (if is_leap y then 29 else 28)
  else 0.

Definition days_before (y m d : Z) : Z :=
  let p := (y - 1)%Z in
  (365 * p + p / 4 - p / 100 + p / 400
   + sum_Z ((λ k, days_in_month y (Z.of_nat k)) <$> seq 1 (Z.to_nat m - 1))
   + (d - 1))%Z.

Definition strptime_utc (s : string) : option datetime :=
  let l := list_ascii_of_string s in
  '(y, l) ← digits 4 l; l ← expect "-" l;
  '(m, l) ← digits 2 l; l ← expect "-" l;
  '(d, l) ← digits 2 l; l ← expect "T" l;
  '(hh, l) ← digits 2 l; l ← expect ":" l;
  '(mm, l) ← digits 2 l; l ← expect ":" l;
  '(ss, l) ← digits 2 l; l ← expect "." l;
  '(f, l) ← digits 1 l;
  us ← fraction 5 f l;
  if bool_decide (1 ≤ y ∧ 1 ≤ m ≤ 12 ∧ 1 ≤ d ≤ days_in_month y m
                  ∧ hh < 24 ∧ mm < 60 ∧ ss < 60)%Z
  then Some ((((days_before y m d * 24 + hh) * 60 + mm) * 60 + ss) * 1000000
             + us)%Z
  else None.

(** ** Sample dumps *)

Module Sample.

Definition buy {T} (m : string) (n price code : Z) (t : T) : event Z T :=
  Event m n price 0%Z 0%Z code t.

Definition produce {T} (m : string) (n billing : Z) (t : T) : event Z T :=
  Event m n 0%Z 0%Z billing 200%Z t.

Definition hold {T} (m : string) (c : Z) (t : T) : event Z T :=
  Event m 0%Z 0%Z c 0%Z 200%Z t.

Definition T0 : string := "2018-05-01T10:00:00.000Z".
Definition T1 : string := "2018-05-01T10:00:01.500Z".
Definition T2 : string := "2018-05-01T10:00:02.000Z".

Definition mapping : list (string * string) :=
  [("m1", "Acme"); ("m2", "Bolt")]%string.

Definition buyOffer : list (event Z string) :=
  [buy "m1" 2 5 200 T1; buy "m2" 1 10 200 T2].

Definition producer : list (event Z string) := [produce "m1" 5 3 T0].

Definition holding : list (event Z string) := [hold "m1" 1 T1].

(** A purchase that failed, with a time stamp that does not parse. *)
Definition failed_purchase : event Z string :=
  buy "m1" 3 5 409 "yesterday".

(** A purchase that succeeded, with a time stamp that does not parse. *)
Definition unparseable_purchase : event Z string :=
  buy "m1" 3 5 200 "yesterday".

(** A purchase of a merchant that the mapping does not know. *)
Definition unknown_purchase : event Z string := buy "m3" 4 7 200 T2.

Definition late_order : event Z string :=
  produce "m1" 1 1 "2018-05-01T10:00:03.000Z".

(** Two orders out of order, and the sale that ends the loop. *)
Definition unsorted_orders : list (event Z datetime) :=
  [produce "m1" 1 0 7%Z; produce "m1" 1 0 5%Z].

Definition late_sale : list (event Z datetime) := [buy "m1" 1 0 200 9%Z].

(** Sorted inputs with a tie at time 10. *)
Definition sales_dt : list (event Z datetime) :=
  [buy "m1" 2 5 200 10%Z; buy "m2" 1 10 200 20%Z].

Definition orders_dt : list (event Z datetime) :=
  [produce "m1" 5 3 10%Z; produce "m2" 4 3 30%Z].

End Sample.

(** ** The price graph: [create_price_graph_reduced], lines 140-161 *)

(** One call [ax.step(times, prices, where='post', label=...)]. *)
Record price_call {num : Type} := PriceCall {
  times : list datetime;
  prices : list num;
  merchant_label : string
}.
Arguments price_call : clear implicits.
Arguments PriceCall {num}.

(** Line 154, the unzipping of the pairs into [prices] and [times]: the
    unpacking fails when there is no pair. *)
Definition unzip_prices {num} (pairs : list (num * datetime))
  : result (list num * list datetime) :=
  match pairs with
  | [] => Raise ValueError
  | _ => Done (pairs.*1, pairs.*2)
  end.

(** [for x in l: d[key(x)].append(value(x))] on a new [defaultdict(list)]. *)
Definition group_by {A V} (key : A → string) (value : A → V) (l : list A)
  : list (string * list V) :=
  foldl (λ d x, dd_append d (key x) (value x)) [] l.

Section prices.
Context {num : Type}.
Variable strptime : string → option datetime.

(** Lines 141-145: the successful updates of both topics, in the order of
    their time stamps; [list.sort] is stable and compares with [<]. *)
Definition sorted_offer_updates (addOffer updateOffer : list (event num string))
  : result (list (event num datetime)) :=
  let offer_updates := addOffer ++ updateOffer in
  let offer_updates :=
    filter (λ offer, http_code offer = 200%Z) offer_updates in
  offer_updates ← convert_timestamps strptime offer_updates;
  Done (py_sorted Z.leb timestamp offer_updates).

(** Lines 153-155: one iteration over the items of the dict. *)
Definition plot_prices (merchant_id_mapping : list (string * string))
    (item : string * list (num * datetime)) : result (price_call num) :=
  '(prices, times) ← unzip_prices item.2;
  label ← dict_getitem merchant_id_mapping item.1;
  Done (PriceCall times prices label).

(** Lines 140-155: the series that are plotted. *)
Definition create_price_graph_reduced
    (merchant_id_mapping : list (string * string))
    (addOffer updateOffer : list (event num string))
  : result (list (price_call num)) :=
  offer_updates ← sorted_offer_updates addOffer updateOffer;
  let prices_over_times_by_merchant :=
    group_by merchant_id (λ offer, (price offer, timestamp offer))
      offer_updates in
  for_each (plot_prices merchant_id_mapping) prices_over_times_by_merchant.

End prices.


(** ** Reference notions for the graphs *)

(** The keys of a list in the order in which they are first seen. *)
Definition first_seen (keys : list string) : list string :=
  foldl (λ seen k, if decide (k ∈ seen) then seen else seen ++ [k]) [] keys.

(** The values of one key, in the order of the list. *)
Definition values_of {A V} (key : A → string) (value : A → V) (k : string)
    (l : list A) : list V :=
  value <$> filter (λ x, key x = k) l.

(** The series of an entity as [create_inventory_graph] plots it. *)
Definition series_call (mapping : list (string * string)) (log : list delta)
    (e : string) : step_call :=
  StepCall (partition_of e log).*1 (accumulate (partition_of e log).*2)
           (default EmptyString (dict_get mapping e)).

(** The successful updates of both topics, parsed and sorted. *)
Definition updates_by_time {num} (strptime : string → option datetime)
    (addOffer updateOffer : list (event num string))
  : list (event num datetime) :=
  py_sorted Z.leb timestamp
    (parsed strptime <$> successful (addOffer ++ updateOffer)).

(** The series of a merchant as [create_price_graph_reduced] plots it. *)
Definition price_series_call {num} (mapping : list (string * string))
    (updates : list (event num datetime)) (m : string) : price_call num :=
  PriceCall (timestamp <$> filter (λ o, merchant_id o = m) updates)
            (price <$> filter (λ o, merchant_id o = m) updates)
            (default EmptyString (dict_get mapping m)).

(** Offers of two merchants, out of order, one of them rejected. *)
Module Market.

Definition offer {T} (m : string) (p code : Z) (t : T) : event Z T :=
  Event m 0%Z p 0%Z 0%Z code t.

Definition addOffer : list (event Z string) :=
  [offer "m2" 30 200 Sample.T1; offer "m1" 20 200 Sample.T0].

Definition updateOffer : list (event Z string) :=
  [offer "m1" 18 200 Sample.T2; offer "m2" 1 409 "yesterday";
   offer "m2" 25 200 Sample.T2].

End Market.

(** * Properties *)

(** ** The result monad *)

Lemma for_each_Done {A B} (f : A → result B) (g : A → B) (l : list A) :
  (∀ x, x ∈ l → f x = Done (g x)) → for_each f l = Done (g <$> l).
Proof.
  induction l as [|x l IH]; intros Hf; [done|].
  cbn. rewrite (Hf x) by left. cbn.
  rewrite IH; [done|]. intros y Hy. apply Hf. by right.
Qed.

Lemma for_each_Raise {A B} (f : A → result B) (l : list A) (e : exn) :
  (∀ x, x ∈ l → f x = Raise e ∨ ∃ y, f x = Done y) →
  (∃ x, x ∈ l ∧ f x = Raise e) →
  for_each f l = Raise e.
Proof.
  induction l as [|x l IH]; intros Hall [y [Hy Hfy]].
  - by apply elem_of_nil in Hy.
  - cbn. destruct (Hall x) as [->|[z Hz]]; [by left|done|].
    rewrite Hz. cbn. rewrite IH; [done| |].
    + intros w Hw. apply Hall. by right.
    + apply elem_of_cons in Hy as [->|Hy]; [congruence|eauto].
Qed.

(** ** Plain dicts and [sorted] *)

Lemma dict_get_key {V} (d : list (string * V)) (k : string) :
  k ∈ dict_keys d → is_Some (dict_get d k).
Proof.
  unfold dict_keys. induction d as [|[k' v] d IH]; cbn; intros Hk.
  - by apply elem_of_nil in Hk.
  - case_decide; [eauto|]. apply elem_of_cons in Hk as [?|?]; [done|eauto].
Qed.

Lemma insert_sorted_perm {A} (le : A → A → bool) (x : A) (l : list A) :
  insert_sorted le x l ≡ₚ x :: l.
Proof.
  induction l as [|y l IH]; cbn; [done|].
  destruct (le x y); [done|]. rewrite IH. apply Permutation_swap.
Qed.

Lemma py_sorted_perm {A K} (le : K → K → bool) (key : A → K) (l : list A) :
  py_sorted le key l ≡ₚ l.
Proof.
  induction l as [|x l IH]; cbn; [done|].
  rewrite insert_sorted_perm. by f_equiv.
Qed.

Lemma py_sorted_elem {A K} (le : K → K → bool) (key : A → K) (l : list A) x :
  x ∈ py_sorted le key l ↔ x ∈ l.
Proof. by rewrite py_sorted_perm. Qed.

(** ** The accumulators *)

Section aggregation_facts.
Context `{PyNumber num} {T : Type}.
Implicit Types (d : gmap string num) (events : list (event num T)).

Lemma dd_getitem_fst d k : (dd_getitem d k).1 = dd_read d k.
Proof. unfold dd_getitem, dd_read. by destruct (d !! k). Qed.

Lemma dd_getitem_read d k k' : dd_read (dd_getitem d k).2 k' = dd_read d k'.
Proof.
  unfold dd_getitem, dd_read. destruct (d !! k) eqn:E; [done|]. cbn.
  destruct (decide (k = k')) as [->|].
  - by rewrite lookup_insert_eq, E.
  - by rewrite lookup_insert_ne.
Qed.

Lemma dd_getitem_present d k : is_Some ((dd_getitem d k).2 !! k).
Proof.
  unfold dd_getitem. destruct (d !! k) eqn:E; cbn; [by rewrite E|].
  rewrite lookup_insert_eq. eauto.
Qed.

Lemma dd_getitem_lookup_ne d k k' :
  k ≠ k' → (dd_getitem d k).2 !! k' = d !! k'.
Proof.
  intros. unfold dd_getitem. destruct (d !! k); cbn; [done|].
  by rewrite lookup_insert_ne.
Qed.

Lemma dd_getitem_absent d k :
  d !! k = None → (dd_getitem d k).2 !! k = Some float_zero.
Proof. intros E. unfold dd_getitem. rewrite E. cbn. apply lookup_insert_eq. Qed.

Lemma dd_getitem_keeps d k k' :
  is_Some (d !! k') → is_Some ((dd_getitem d k).2 !! k').
Proof.
  intros. destruct (decide (k = k')) as [->|].
  - apply dd_getitem_present.
  - by rewrite dd_getitem_lookup_ne.
Qed.

Lemma dd_iadd_lookup_eq d k v :
  dd_iadd d k v !! k = Some (py_add (dd_read d k) v).
Proof.
  unfold dd_iadd. rewrite <- (dd_getitem_fst d k).
  destruct (dd_getitem d k). apply lookup_insert_eq.
Qed.

Lemma dd_iadd_lookup_ne d k v k' : k ≠ k' → dd_iadd d k v !! k' = d !! k'.
Proof.
  intros. unfold dd_iadd. rewrite <- (dd_getitem_lookup_ne d k k') by done.
  destruct (dd_getitem d k). by rewrite lookup_insert_ne.
Qed.

(** After the loop, the dict holds for a merchant the sum of its events,
    and no key for a merchant without events. *)
Lemma sum_into_lookup (value : event num T → num) d events e :
  sum_into value d events !! e =
    match events_of e events with
    | [] => d !! e
    | _ => Some (foldl py_add (dd_read d e) (value <$> events_of e events))
    end.
Proof.
  unfold sum_into, events_of. revert d.
  induction events as [|ev events IH]; intros d; [done|].
  cbn [foldl]. rewrite IH. rewrite filter_cons. case_decide as E.
  - subst e. cbn [fmap list_fmap foldl].
    unfold dd_read at 1 2. rewrite dd_iadd_lookup_eq. cbn.
    by destruct (filter _ events).
  - unfold dd_read. rewrite dd_iadd_lookup_ne by done.
    by destruct (filter _ events).
Qed.

Lemma sum_into_read (value : event num T → num) events e :
  dd_read (sum_into value ∅ events) e = total value e events.
Proof.
  unfold dd_read at 1, total. rewrite sum_into_lookup.
  destruct (events_of e events) eqn:E; [by rewrite lookup_empty|].
  cbn [default]. unfold dd_read. by rewrite lookup_empty.
Qed.

Lemma sum_into_absent (value : event num T → num) events e :
  events_of e events = [] → sum_into value ∅ events !! e = None.
Proof. intros E. rewrite sum_into_lookup, E. apply lookup_empty. Qed.

Lemma sum_into_present (value : event num T → num) events ev :
  ev ∈ events →
  sum_into value ∅ events !! merchant_id ev
  = Some (total value (merchant_id ev) events).
Proof.
  intros Hin. rewrite sum_into_lookup. unfold total.
  destruct (events_of (merchant_id ev) events) eqn:E.
  - assert (ev ∈ events_of (merchant_id ev) events) as Hev
      by (by apply list_elem_of_filter).
    rewrite E in Hev. by apply elem_of_nil in Hev.
  - unfold dd_read. by rewrite lookup_empty.
Qed.

Lemma total_nil (value : event num T → num) events e :
  events_of e events = [] → total value e events = float_zero.
Proof. unfold total. by intros ->. Qed.

Lemma profit_item_spec (st : dicts * gmap string num) m :
  same_reads st.1 (profit_item st m).1
  ∧ (profit_item st m).2 = <[m := profit_value st.1 m]> st.2.
Proof.
  unfold profit_item, profit_value, same_reads.
  rewrite <- !dd_getitem_fst.
  pose proof (dd_getitem_read (revenue st.1) m) as Hr.
  pose proof (dd_getitem_read (holding_cost st.1) m) as Hh.
  pose proof (dd_getitem_read (order_cost st.1) m) as Ho.
  destruct (dd_getitem (revenue st.1) m), (dd_getitem (holding_cost st.1) m),
    (dd_getitem (order_cost st.1) m). cbn in *. split; [|done].
  intros k. by rewrite Hr, Hh, Ho.
Qed.

Lemma profit_value_same ds ds' m :
  same_reads ds ds' → profit_value ds m = profit_value ds' m.
Proof.
  intros Hs. unfold profit_value. destruct (Hs m) as (-> & -> & ->). done.
Qed.

Lemma foldl_profit_item (ds : dicts) (profit : gmap string num) keys :
  same_reads ds (foldl profit_item (ds, profit) keys).1
  ∧ ∀ m, (foldl profit_item (ds, profit) keys).2 !! m =
         if decide (m ∈ keys) then Some (profit_value ds m) else profit !! m.
Proof.
  induction keys as [|k keys IH] using rev_ind.
  - split; [done|]. intros m. cbn. case_decide as E; [|done].
    by apply elem_of_nil in E.
  - rewrite foldl_snoc. destruct IH as [IH1 IH2].
    destruct (profit_item_spec (foldl profit_item (ds, profit) keys) k)
      as [Hs Hp].
    split.
    + intros m. destruct (IH1 m) as (-> & -> & ->). apply Hs.
    + intros m. rewrite Hp.
      destruct (decide (k = m)) as [->|Hne].
      * rewrite lookup_insert_eq.
        rewrite decide_True by (apply elem_of_app; right; by left).
        f_equal. symmetry. by apply profit_value_same.
      * rewrite lookup_insert_ne by done. rewrite IH2.
        destruct (decide (m ∈ keys)) as [Hin|Hout].
        -- rewrite decide_True by (apply elem_of_app; by left). done.
        -- rewrite decide_False; [done|].
           intros [?|Hm%list_elem_of_singleton]%elem_of_app; congruence.
Qed.

Lemma profit_of_lookup ds mapping m :
  m ∈ dict_keys mapping →
  (profit_of ds mapping).2 !! m = Some (profit_value ds m).
Proof.
  intros Hm. unfold profit_of.
  destruct (foldl_profit_item ds ∅ (dict_keys mapping)) as [_ ->].
  by rewrite decide_True.
Qed.

Lemma profit_of_same_reads ds mapping :
  same_reads ds (profit_of ds mapping).1.
Proof. apply foldl_profit_item. Qed.

Lemma write_rows_spec mapping (profit : gmap string num) ds0 ds merchants :
  same_reads ds0 ds →
  (∀ m, m ∈ merchants →
        is_Some (dict_get mapping m) ∧ is_Some (profit !! m)) →
  write_rows mapping profit ds merchants =
    Done ((λ m, row (default EmptyString (dict_get mapping m))
                    (dd_read (revenue ds0) m) (dd_read (holding_cost ds0) m)
                    (dd_read (order_cost ds0) m)
                    (default float_zero (profit !! m))) <$> merchants).
Proof.
  revert ds. induction merchants as [|m rest IH]; intros ds Hs Hok; [done|].
  cbn [write_rows]. destruct (Hok m) as [[name Hn] [p Hp]]; [by left|].
  unfold dict_getitem. rewrite Hn, Hp. cbn.
  pose proof (dd_getitem_fst (revenue ds) m) as Hr.
  pose proof (dd_getitem_fst (holding_cost ds) m) as Hh.
  pose proof (dd_getitem_fst (order_cost ds) m) as Ho.
  pose proof (dd_getitem_read (revenue ds) m) as Hr'.
  pose proof (dd_getitem_read (holding_cost ds) m) as Hh'.
  pose proof (dd_getitem_read (order_cost ds) m) as Ho'.
  destruct (dd_getitem (revenue ds) m), (dd_getitem (holding_cost ds) m),
    (dd_getitem (order_cost ds) m). cbn in *.
  rewrite (IH (Dicts g g0 g1)).
  - subst n n0 n1. destruct (Hs m) as (E1 & E2 & E3).
    cbn. by rewrite Hn, Hp, E1, E2, E3.
  - intros k. cbn. rewrite Hr', Hh', Ho'. apply Hs.
  - intros k Hk. apply Hok. by right.
Qed.

(** The table: the header and then the row of every key of the mapping,
    in the order of the names. *)
Lemma results_csv_spec mapping (buyOffer holding producer : list (event num T)) :
  results_csv mapping buyOffer holding producer =
    Done (header ["name"; "revenue"; "holding_cost"; "order_cost"; "profit"]
          :: (summary_row mapping buyOffer holding producer
                <$> py_sorted name_le (dict_get mapping) (dict_keys mapping))).
Proof.
  unfold results_csv.
  set (ds := Dicts _ _ _).
  pose proof (profit_of_same_reads ds mapping) as Hs.
  pose proof (profit_of_lookup ds mapping) as Hp.
  destruct (profit_of ds mapping) as [ds' profit]. cbn in Hs, Hp.
  rewrite (write_rows_spec mapping profit ds ds'); [|done|].
  - cbn. do 2 f_equal. apply list_fmap_ext. intros i m Hm.
    apply list_elem_of_lookup_2, py_sorted_elem in Hm.
    rewrite Hp by done. unfold summary_row, profit_value. cbn.
    unfold ds, revenue_of, holding_cost_of, order_cost_of. cbn.
    by rewrite !sum_into_read.
  - intros m Hm%py_sorted_elem. split; [by apply dict_get_key|].
    rewrite Hp by done. eauto.
Qed.

End aggregation_facts.

(** ** The summary table *)

Section summary.
Context `{PyNumber num} {T : Type}.
Implicit Types (mapping : list (string * string)).
Implicit Types (buyOffer holding producer : list (event num T)).

(** The rank of a merchant in the table. *)
Lemma results_csv_row mapping buyOffer holding producer e :
  e ∈ dict_keys mapping →
  ∃ rows i,
    results_csv mapping buyOffer holding producer = Done rows
    ∧ py_sorted name_le (dict_get mapping) (dict_keys mapping) !! i = Some e
    ∧ rows !! S i = Some (summary_row mapping buyOffer holding producer e).
Proof.
  intros He. rewrite results_csv_spec.
  apply (py_sorted_elem name_le (dict_get mapping)) in He.
  apply list_elem_of_lookup_1 in He as [i Hi].
  eexists _, i. split; [done|]. split; [done|].
  rewrite lookup_cons_ne_0 by done. cbn [Nat.pred].
  by rewrite list_lookup_fmap, Hi.
Qed.

Lemma events_of_filter (P : event num T → Prop) `{∀ ev, Decision (P ev)}
    (events : list (event num T)) e :
  (∀ ev, merchant_id ev = e → P ev) →
  events_of e (filter P events) = events_of e events.
Proof.
  intros HP. unfold events_of.
  induction events as [|ev events IH]; [done|].
  rewrite (filter_cons (λ ev, merchant_id ev = e) ev events).
  rewrite (filter_cons P). destruct (decide (P ev)) as [Hy|Hn].
  - rewrite filter_cons. case_decide; by rewrite IH.
  - rewrite decide_False; [done|]. intros E. by apply Hn, HP.
Qed.

Lemma summary_row_filter (P : event num T → Prop) `{∀ ev, Decision (P ev)}
    mapping buyOffer holding producer e :
  (∀ ev, merchant_id ev = e → P ev) →
  summary_row mapping (filter P buyOffer) (filter P holding)
     (filter P producer) e
  = summary_row mapping buyOffer holding producer e.
Proof.
  intros HP. unfold summary_row, total. by rewrite !events_of_filter.
Qed.

(** C4: for every entity [e] of the identifier mapping, the profit that
    is computed is [revenue[e] - holding_cost[e] - order_cost[e]], where
    the three operands are read from the dicts as they are once the three
    loops have run over the whole of their topics: [revenue[e]] is the sum
    of [amount * price] over the purchase events of [e], [holding_cost[e]]
    the sum of the costs of its holding-cost events, and [order_cost[e]] the
    sum of its billing amounts.  The row of [e] in [results.csv] carries
    these four numbers. *)
Theorem profit_is_revenue_minus_costs mapping buyOffer holding producer e :
  e ∈ dict_keys mapping →
  let ds := Dicts (revenue_of buyOffer) (holding_cost_of holding)
                  (order_cost_of producer) in
  let r := (dd_getitem (revenue ds) e).1 in
  let h := (dd_getitem (holding_cost ds) e).1 in
  let o := (dd_getitem (order_cost ds) e).1 in
  r = foldl py_add float_zero (purchase_value <$> events_of e buyOffer)
  ∧ h = foldl py_add float_zero (cost <$> events_of e holding)
  ∧ o = foldl py_add float_zero (billing_amount <$> events_of e producer)
  ∧ (profit_of ds mapping).2 !! e = Some (py_sub (py_sub r h) o)
  ∧ ∃ rows i name,
      results_csv mapping buyOffer holding producer = Done rows
      ∧ dict_get mapping e = Some name
      ∧ py_sorted name_le (dict_get mapping) (dict_keys mapping) !! i = Some e
      ∧ rows !! S i = Some (row name r h o (py_sub (py_sub r h) o)).
Proof.
  intros He ds r h o.
  assert (r = total purchase_value e buyOffer) as Hr
    by (unfold r; rewrite dd_getitem_fst; apply sum_into_read).
  assert (h = total cost e holding) as Hh
    by (unfold h; rewrite dd_getitem_fst; apply sum_into_read).
  assert (o = total billing_amount e producer) as Ho
    by (unfold o; rewrite dd_getitem_fst; apply sum_into_read).
  repeat split; [done..| |].
  - rewrite profit_of_lookup by done. unfold profit_value.
    unfold r, h, o. by rewrite !dd_getitem_fst.
  - destruct (results_csv_row mapping buyOffer holding producer e He)
      as (rows & i & Hrows & Hi & Hrow).
    destruct (dict_get_key mapping e He) as [name Hname].
    exists rows, i, name. repeat split; [done..|].
    rewrite Hrow. unfold summary_row. by rewrite Hname, Hr, Hh, Ho.
Qed.

(** C5: for an entity of the identifier mapping that has no event in a
    category, reading that category's dict returns [float()], exactly
    zero, and inserts the key (no [KeyError]); the entity has its row in
    the table, at the rank of its name, with zero in the column of every
    category in which it has no event. *)
Theorem absent_entity_has_zero_total mapping buyOffer holding producer e :
  e ∈ dict_keys mapping →
  (∀ (value : event num T → num) (events : list (event num T)),
     events_of e events = [] →
     sum_into value ∅ events !! e = None
     ∧ dd_getitem (sum_into value ∅ events) e
       = (float_zero, <[e := float_zero]> (sum_into value ∅ events)))
  ∧ ∃ rows i name r h o,
      results_csv mapping buyOffer holding producer = Done rows
      ∧ dict_get mapping e = Some name
      ∧ py_sorted name_le (dict_get mapping) (dict_keys mapping) !! i = Some e
      ∧ rows !! S i = Some (row name r h o (py_sub (py_sub r h) o))
      ∧ (events_of e buyOffer = [] → r = float_zero)
      ∧ (events_of e holding = [] → h = float_zero)
      ∧ (events_of e producer = [] → o = float_zero).
Proof.
  intros He. split.
  - intros value events Hnone.
    pose proof (sum_into_absent value events e Hnone) as Habs.
    split; [done|]. unfold dd_getitem. by rewrite Habs.
  - destruct (results_csv_row mapping buyOffer holding producer e He)
      as (rows & i & Hrows & Hi & Hrow).
    destruct (dict_get_key mapping e He) as [name Hname].
    exists rows, i, name, (total purchase_value e buyOffer),
      (total cost e holding), (total billing_amount e producer).
    repeat split; [done..| | | |]; try apply total_nil.
    rewrite Hrow. unfold summary_row. by rewrite Hname.
Qed.

(** C8: an event whose merchant is not a key of the identifier mapping
    is summed under its identifier like every other event, and the run
    does not fail; the table has the header and one row for each key of
    the mapping, so none for that identifier, and it is the table of the
    dump without the events of unknown merchants. *)
Theorem unknown_entity_is_summed_without_row
    mapping buyOffer holding producer (ev : event num T) :
  merchant_id ev ∉ dict_keys mapping →
  (∀ (value : event num T → num) (events : list (event num T)),
     ev ∈ events →
     sum_into value ∅ events !! merchant_id ev
     = Some (foldl py_add float_zero
               (value <$> events_of (merchant_id ev) events)))
  ∧ (let merchants :=
       py_sorted name_le (dict_get mapping) (dict_keys mapping) in
     results_csv mapping buyOffer holding producer
     = Done (header ["name"; "revenue"; "holding_cost"; "order_cost"; "profit"]
             :: (summary_row mapping buyOffer holding producer <$> merchants))
     ∧ (merchant_id ev ∉ merchants)
     ∧ length merchants = length mapping)
  ∧ (let known := λ ev' : event num T, merchant_id ev' ∈ dict_keys mapping in
     results_csv mapping (filter known buyOffer) (filter known holding)
       (filter known producer)
     = results_csv mapping buyOffer holding producer).
Proof.
  intros Hunknown. split; [|split].
  - intros value events Hin. by apply sum_into_present.
  - cbn zeta. split; [apply results_csv_spec|]. split.
    + by rewrite py_sorted_elem.
    + rewrite py_sorted_perm. unfold dict_keys. by rewrite length_fmap.
  - cbn zeta. rewrite !results_csv_spec. do 2 f_equal.
    apply list_fmap_ext. intros i m Hm.
    apply list_elem_of_lookup_2, py_sorted_elem in Hm.
    apply summary_row_filter. by intros ev' ->.
Qed.

End summary.

(** The table is always written; the run fails only where the graph does. *)
Lemma analyze_kafka_dump_table `{PyNumber num}
    (strptime : string → option datetime) (mapping : list (string * string))
    (buyOffer holding producer : list (event num string)) :
  analyze_kafka_dump strptime mapping buyOffer holding producer =
    calls ← create_inventory_graph strptime mapping buyOffer producer;
    Done (header ["name"; "revenue"; "holding_cost"; "order_cost"; "profit"]
          :: (summary_row mapping buyOffer holding producer
                <$> py_sorted name_le (dict_get mapping) (dict_keys mapping)),
          calls).
Proof. unfold analyze_kafka_dump. by rewrite results_csv_spec. Qed.

(** The first example of the summary: two merchants, one of them without
    orders and holding costs. *)
Example results_csv_sample :
  results_csv Sample.mapping Sample.buyOffer Sample.holding Sample.producer
  = Done [header ["name"; "revenue"; "holding_cost"; "order_cost"; "profit"];
          row "Acme" 10%Z 1%Z 3%Z 6%Z; row "Bolt" 10%Z 0%Z 0%Z 10%Z].
Proof. vm_compute. reflexivity. Qed.

Lemma profit_is_revenue_minus_costs_witness :
  "m2"%string ∈ dict_keys Sample.mapping
  ∧ (profit_of (Dicts (revenue_of Sample.buyOffer)
                      (holding_cost_of Sample.holding)
                      (order_cost_of Sample.producer)) Sample.mapping).2
      !! "m2"%string = Some 10%Z.
Proof.
  assert ("m2"%string ∈ dict_keys Sample.mapping) as Hin
    by (right; left).
  split; [exact Hin|].
  destruct (profit_is_revenue_minus_costs Sample.mapping Sample.buyOffer
              Sample.holding Sample.producer "m2"%string Hin)
    as (_ & _ & _ & Hp & _).
  rewrite Hp. vm_compute. reflexivity.
Defined.

Lemma absent_entity_has_zero_total_witness :
  "m2"%string ∈ dict_keys Sample.mapping
  ∧ events_of "m2"%string Sample.producer = []
  ∧ dd_getitem (order_cost_of Sample.producer) "m2"%string
    = (0%Z, <[ "m2"%string := 0%Z ]> (order_cost_of Sample.producer)).
Proof.
  assert ("m2"%string ∈ dict_keys Sample.mapping) as Hin
    by (right; left).
  split; [exact Hin|]. split; [reflexivity|].
  destruct (absent_entity_has_zero_total Sample.mapping Sample.buyOffer
              Sample.holding Sample.producer "m2"%string Hin) as [Hread _].
  apply (Hread billing_amount Sample.producer). reflexivity.
Defined.

Lemma unknown_entity_is_summed_without_row_witness :
  (merchant_id Sample.unknown_purchase ∉ dict_keys Sample.mapping)
  ∧ revenue_of (Sample.buyOffer ++ [Sample.unknown_purchase]) !! "m3"%string
    = Some 28%Z
  ∧ results_csv Sample.mapping (Sample.buyOffer ++ [Sample.unknown_purchase])
      Sample.holding Sample.producer
    = results_csv Sample.mapping Sample.buyOffer Sample.holding
        Sample.producer.
Proof.
  assert (merchant_id Sample.unknown_purchase ∉ dict_keys Sample.mapping)
    as Hout.
  { intros Hin. cbn in Hin.
    repeat (apply elem_of_cons in Hin as [Hin|Hin]; [discriminate|]).
    by apply elem_of_nil in Hin. }
  split; [exact Hout|].
  destruct (unknown_entity_is_summed_without_row Sample.mapping
              (Sample.buyOffer ++ [Sample.unknown_purchase]) Sample.holding
              Sample.producer Sample.unknown_purchase Hout)
    as (Hsum & _ & Hdrop).
  split.
  - unfold revenue_of. etrans; [apply (Hsum purchase_value)|].
    + apply elem_of_app. right. left.
    + vm_compute. reflexivity.
  - rewrite <- Hdrop. vm_compute. reflexivity.
Defined.

(** ** The loop *)

Lemma ascending_cons (x : datetime) (ts : list datetime) :
  ascending (x :: ts) ↔ Forall (λ y, (x ≤ y)%Z) ts ∧ ascending ts.
Proof.
  split.
  - intros Hasc. split.
    + apply Forall_lookup. intros i y Hy.
      apply (Hasc 0 (S i)); [lia|done..].
    + intros i j a b Hij Ha Hb. apply (Hasc (S i) (S j)); [lia|done..].
  - intros [Hall Hasc] i j a b Hij Ha Hb.
    destruct i as [|i], j as [|j]; cbn in *; simplify_eq; try lia.
    + eapply Forall_lookup in Hall; [|done]. done.
    + apply (Hasc i j); [lia|done..].
Qed.

Lemma ascending_StronglySorted (ts : list datetime) :
  ascending ts ↔ StronglySorted Z.le ts.
Proof.
  induction ts as [|x ts IH].
  - split; [constructor|]. intros _ i j a b _ Ha. done.
  - rewrite ascending_cons, StronglySorted_cons, IH. done.
Qed.

Lemma ascending_snoc (ts : list datetime) (x : datetime) :
  ascending ts → Forall (λ y, (y ≤ x)%Z) ts → ascending (ts ++ [x]).
Proof.
  rewrite !ascending_StronglySorted. intros Hs Hall.
  apply StronglySorted_app_2; [|done|repeat constructor].
  intros a b Ha ->%list_elem_of_singleton.
  by eapply Forall_forall in Hall.
Qed.

Lemma ascending_filter_fmap {A} (f : A → datetime) (P : A → Prop)
    `{∀ x, Decision (P x)} (l : list A) :
  ascending (f <$> l) → ascending (f <$> filter P l).
Proof.
  induction l as [|x l IH]; [done|].
  rewrite fmap_cons, ascending_cons. intros [Hall Hasc].
  rewrite filter_cons. case_decide; [|by apply IH].
  rewrite fmap_cons, ascending_cons. split; [|by apply IH].
  rewrite Forall_fmap, Forall_forall in Hall.
  apply Forall_fmap, Forall_forall. intros y [_ Hy]%list_elem_of_filter.
  by apply Hall.
Qed.

Lemma dict_get_dd_append {V} (d : list (string * list V)) (k k' : string) v :
  dict_get (dd_append d k v) k' =
    if decide (k' = k) then Some (default [] (dict_get d k) ++ [v])
    else dict_get d k'.
Proof.
  induction d as [|[k0 l] d IH]; cbn.
  - repeat case_decide; congruence.
  - destruct (decide (k = k0)) as [->|Hne]; cbn.
    + repeat case_decide; congruence.
    + rewrite IH. repeat case_decide; congruence.
Qed.

Lemma partition_of_snoc e (log : list delta) (d : delta) :
  partition_of e (log ++ [d]) =
    partition_of e log
    ++ (if decide (entity_id d = e) then [(at_time d, change d)] else []).
Proof.
  unfold partition_of. rewrite filter_app, fmap_app. f_equal.
  rewrite filter_cons, filter_nil. by case_decide.
Qed.

Lemma dict_tracks_append ip (log : list delta) (d : delta) :
  dict_tracks ip log →
  dict_tracks (dd_append ip (entity_id d) (at_time d, change d)) (log ++ [d]).
Proof.
  intros Htr e. rewrite dict_get_dd_append, partition_of_snoc.
  destruct (decide (e = entity_id d)) as [->|Hne].
  - rewrite decide_True by done. rewrite Htr.
    by destruct (partition_of (entity_id d) log).
  - rewrite decide_False by done. rewrite app_nil_r. apply Htr.
Qed.

Lemma from_origin_snoc o (log : list delta) (d : delta) :
  from_origin o (log ++ [d]) =
    from_origin o log ++ (if decide (origin_of (taken d) = o) then [d] else []).
Proof.
  unfold from_origin. by rewrite filter_app.
Qed.

Section merge_facts.
Context {num : Type}.
Implicit Types (sales orders : list (event num datetime)) (st : loop_state).

Lemma loop_cond_true sales orders st :
  loop_cond sales orders st = true ↔
  sale_index st < length sales ∧ order_index st < length orders.
Proof.
  unfold loop_cond. rewrite andb_true_iff, !bool_decide_eq_true. done.
Qed.

Lemma loop_cond_false sales orders st :
  loop_cond sales orders st = false ↔
  length sales ≤ sale_index st ∨ length orders ≤ order_index st.
Proof.
  unfold loop_cond. rewrite andb_false_iff, !bool_decide_eq_false. lia.
Qed.

(** Inside the loop both heads exist, and the body takes one of the two
    branches that compare them. *)
Lemma loop_body_compares sales orders st :
  loop_cond sales orders st = true →
  ∃ o s,
    orders !! order_index st = Some o ∧ sales !! sale_index st = Some s
    ∧ loop_body sales orders st =
        Done (if decide (timestamp o ≤ timestamp s)%Z
              then append_order order_first o st
              else append_sale sale_first s st).
Proof.
  intros [Hs Ho]%loop_cond_true.
  destruct (lookup_lt_is_Some_2 _ _ Hs) as [s Es].
  destruct (lookup_lt_is_Some_2 _ _ Ho) as [o Eo].
  exists o, s. split; [done|]. split; [done|].
  unfold loop_body, py_index.
  rewrite decide_False by lia. rewrite decide_False by lia.
  rewrite Eo, Es. cbn. by case_decide.
Qed.

(** The loop returns within the budget, and what the two comparing
    branches preserve holds when it returns. *)
Lemma merge_loop_invariant (I : loop_state → Prop) sales orders :
  (∀ st o s, I st →
     orders !! order_index st = Some o → sales !! sale_index st = Some s →
     (timestamp o ≤ timestamp s)%Z → I (append_order order_first o st)) →
  (∀ st o s, I st →
     orders !! order_index st = Some o → sales !! sale_index st = Some s →
     (timestamp s < timestamp o)%Z → I (append_sale sale_first s st)) →
  ∀ fuel st,
    I st →
    (length sales - sale_index st) + (length orders - order_index st) ≤ fuel →
    ∃ st', merge_loop fuel sales orders st = Done st'
           ∧ I st' ∧ loop_cond sales orders st' = false.
Proof.
  intros Horder Hsale fuel.
  induction fuel as [|fuel IH]; intros st HI Hfuel.
  - exists st. cbn. destruct (loop_cond sales orders st) eqn:E.
    + apply loop_cond_true in E. lia.
    + done.
  - cbn. destruct (loop_cond sales orders st) eqn:E; [|by exists st].
    destruct (loop_body_compares sales orders st E) as (o & s & Eo & Es & ->).
    apply loop_cond_true in E. cbn.
    case_decide.
    + apply IH; [by eapply Horder|]. cbn. lia.
    + apply IH; [eapply Hsale; [done..|lia]|]. cbn. lia.
Qed.

Lemma merge_invariant (I : loop_state → Prop) sales orders :
  I (LoopState 0 0 [] []) →
  (∀ st o s, I st →
     orders !! order_index st = Some o → sales !! sale_index st = Some s →
     (timestamp o ≤ timestamp s)%Z → I (append_order order_first o st)) →
  (∀ st o s, I st →
     orders !! order_index st = Some o → sales !! sale_index st = Some s →
     (timestamp s < timestamp o)%Z → I (append_sale sale_first s st)) →
  ∃ st, merge sales orders = Done st
        ∧ I st ∧ loop_cond sales orders st = false.
Proof.
  intros Hinit Horder Hsale. unfold merge.
  apply merge_loop_invariant; [done..|]. cbn. lia.
Qed.

(** A larger budget does not change what the loop returns. *)
Lemma merge_loop_more_fuel sales orders fuel fuel' st st' :
  merge_loop fuel sales orders st = Done st' → fuel ≤ fuel' →
  merge_loop fuel' sales orders st = Done st'.
Proof.
  revert fuel' st. induction fuel as [|fuel IH]; intros fuel' st.
  - cbn. destruct (loop_cond sales orders st) eqn:E; [done|].
    intros [= <-] _. destruct fuel'; cbn; by rewrite E.
  - cbn. destruct (loop_cond sales orders st) eqn:E.
    + intros Hrun Hle. destruct fuel' as [|fuel']; [lia|].
      cbn. rewrite E.
      destruct (loop_body sales orders st) as [st1| |]; cbn in *; try done.
      apply IH; [done|lia].
    + intros [= <-] _. destruct fuel'; cbn; by rewrite E.
Qed.

End merge_facts.

(** ** The invariants of the loop *)

Section invariants.
Context {num : Type}.
Implicit Types (sales orders : list (event num datetime)) (st : loop_state).

Lemma sorted_lookup (events : list (event num datetime)) i j a b :
  sorted_by_timestamp events → i ≤ j →
  events !! i = Some a → events !! j = Some b →
  (timestamp a ≤ timestamp b)%Z.
Proof.
  intros Hs Hij Ha Hb.
  apply (Hs i j); [done|..]; apply list_lookup_fmap_Some; eauto.
Qed.

Lemma merge_inv_init sales orders : merge_inv sales orders (LoopState 0 0 [] []).
Proof. split; cbn; try done; try lia. Qed.

Lemma merge_inv_order sales orders st o :
  merge_inv sales orders st → orders !! order_index st = Some o →
  merge_inv sales orders (append_order order_first o st).
Proof.
  intros [Hi Hj Ho Hs Hb Hd Hl] Eo.
  split; cbn [append_order sale_index order_index merged inventory_progressions].
  - done.
  - by apply lookup_lt_Some in Eo.
  - rewrite from_origin_snoc. cbn. rewrite fmap_app, Ho.
    erewrite take_S_r; [done|]. by rewrite list_lookup_fmap, Eo.
  - rewrite from_origin_snoc. cbn. by rewrite app_nil_r.
  - apply Forall_app. split; [done|]. apply Forall_singleton. by left.
  - by apply (dict_tracks_append _ _
                (Delta order_first (merchant_id o) (timestamp o) (amount o))).
  - rewrite length_app. cbn. lia.
Qed.

Lemma merge_inv_sale sales orders st s :
  merge_inv sales orders st → sales !! sale_index st = Some s →
  merge_inv sales orders (append_sale sale_first s st).
Proof.
  intros [Hi Hj Ho Hs Hb Hd Hl] Es.
  split; cbn [append_sale sale_index order_index merged inventory_progressions].
  - by apply lookup_lt_Some in Es.
  - done.
  - rewrite from_origin_snoc. cbn. by rewrite app_nil_r.
  - rewrite from_origin_snoc. cbn. rewrite fmap_app, Hs.
    erewrite take_S_r; [done|]. by rewrite list_lookup_fmap, Es.
  - apply Forall_app. split; [done|]. apply Forall_singleton. by right.
  - by apply (dict_tracks_append _ _
                (Delta sale_first (merchant_id s) (timestamp s)
                       (-1 * amount s)%Z)).
  - rewrite length_app. cbn. lia.
Qed.

(** The loop always returns, with one input used up. *)
Lemma merge_returns sales orders :
  ∃ st, merge sales orders = Done st
        ∧ merge_inv sales orders st
        ∧ loop_cond sales orders st = false.
Proof.
  apply (merge_invariant (merge_inv sales orders)).
  - apply merge_inv_init.
  - intros st o s HI Eo _ _. by apply merge_inv_order.
  - intros st o s HI _ Es _. by apply merge_inv_sale.
Qed.

Lemma sorted_inv_init sales orders :
  sorted_inv sales orders (LoopState 0 0 [] []).
Proof.
  split; cbn.
  - intros i j a b _ Ha. done.
  - intros d o k Hd. by apply elem_of_nil in Hd.
  - intros d s k Hd. by apply elem_of_nil in Hd.
  - intros d o k Hd. by apply elem_of_nil in Hd.
  - intros p q a b _ Ha. done.
Qed.

Lemma sorted_inv_order sales orders st o s :
  sorted_by_timestamp sales → sorted_by_timestamp orders →
  sorted_inv sales orders st →
  orders !! order_index st = Some o → sales !! sale_index st = Some s →
  (timestamp o ≤ timestamp s)%Z →
  sorted_inv sales orders (append_order order_first o st).
Proof.
  intros Hss Hso [Hasc Hbo Hbs Hsbo Hsto] Eo Es Hle.
  split; cbn [append_order sale_index order_index merged].
  - rewrite fmap_app. apply ascending_snoc; [done|].
    apply Forall_fmap, Forall_forall. intros d Hd. cbn.
    by apply (Hbo d o (order_index st)).
  - intros d o' k [Hd| ->%list_elem_of_singleton]%elem_of_app Hk Eo'.
    + apply (Hbo d o' k); [done|lia|done].
    + cbn. apply (sorted_lookup orders (order_index st) k); [done|lia|done..].
  - intros d s' k [Hd| ->%list_elem_of_singleton]%elem_of_app Hk Es'.
    + by apply (Hbs d s' k).
    + cbn. eapply Z.le_trans; [exact Hle|].
      by apply (sorted_lookup sales (sale_index st) k).
  - intros d o' k [Hd| ->%list_elem_of_singleton]%elem_of_app Hor Hk Eo'.
    + apply (Hsbo d o' k); [done..|lia|done].
    + done.
  - intros p q a b Hpq Ha [[Hq Hb]|[-> <-]]%lookup_snoc_Some Hoa Hob.
    + rewrite lookup_app_l in Ha by lia. by apply (Hsto p q).
    + rewrite lookup_app_l in Ha by lia. cbn.
      apply list_elem_of_lookup_2 in Ha.
      by apply (Hsbo a o (order_index st)).
Qed.

Lemma sorted_inv_sale sales orders st o s :
  sorted_by_timestamp sales → sorted_by_timestamp orders →
  sorted_inv sales orders st →
  orders !! order_index st = Some o → sales !! sale_index st = Some s →
  (timestamp s < timestamp o)%Z →
  sorted_inv sales orders (append_sale sale_first s st).
Proof.
  intros Hss Hso [Hasc Hbo Hbs Hsbo Hsto] Eo Es Hlt.
  split; cbn [append_sale sale_index order_index merged].
  - rewrite fmap_app. apply ascending_snoc; [done|].
    apply Forall_fmap, Forall_forall. intros d Hd. cbn.
    by apply (Hbs d s (sale_index st)).
  - intros d o' k [Hd| ->%list_elem_of_singleton]%elem_of_app Hk Eo'.
    + by apply (Hbo d o' k).
    + cbn. apply Z.lt_le_incl. eapply Z.lt_le_trans; [exact Hlt|].
      by apply (sorted_lookup orders (order_index st) k).
  - intros d s' k [Hd| ->%list_elem_of_singleton]%elem_of_app Hk Es'.
    + apply (Hbs d s' k); [done|lia|done].
    + cbn. apply (sorted_lookup sales (sale_index st) k); [done|lia|done..].
  - intros d o' k [Hd| ->%list_elem_of_singleton]%elem_of_app Hor Hk Eo'.
    + by apply (Hsbo d o' k).
    + cbn. eapply Z.lt_le_trans; [exact Hlt|].
      by apply (sorted_lookup orders (order_index st) k).
  - intros p q a b Hpq Ha [[Hq Hb]|[-> <-]]%lookup_snoc_Some Hoa Hob.
    + rewrite lookup_app_l in Ha by lia. by apply (Hsto p q).
    + done.
Qed.

(** On sorted inputs the loop returns with both invariants. *)
Lemma merge_returns_sorted sales orders :
  sorted_by_timestamp sales → sorted_by_timestamp orders →
  ∃ st, merge sales orders = Done st
        ∧ merge_inv sales orders st
        ∧ sorted_inv sales orders st
        ∧ loop_cond sales orders st = false.
Proof.
  intros Hss Hso.
  destruct (merge_invariant
              (λ st, merge_inv sales orders st ∧ sorted_inv sales orders st)
              sales orders) as (st & Hrun & [Hm Hs] & Hc).
  - split; [apply merge_inv_init|apply sorted_inv_init].
  - intros st o s [Hm Hs] Eo Es Hle. split.
    + by apply merge_inv_order.
    + by eapply sorted_inv_order.
  - intros st o s [Hm Hs] Eo Es Hlt. split.
    + by apply merge_inv_sale.
    + by eapply sorted_inv_sale.
  - by exists st.
Qed.

End invariants.

(** ** The merge *)

Section merge_claims.
Context {num : Type}.
Implicit Types (sales orders : list (event num datetime)) (st : loop_state).

(** X12: what the loop appends for each origin is a prefix of that input,
    in its order; one of the two prefixes is the whole input. *)
Lemma merge_prefixes sales orders :
  ∃ st, merge sales orders = Done st
    ∧ triple <$> from_origin replenishment (merged st)
      = take (order_index st) (order_change <$> orders)
    ∧ triple <$> from_origin purchase (merged st)
      = take (sale_index st) (sale_change <$> sales)
    ∧ (sale_index st = length sales ∨ order_index st = length orders).
Proof.
  destruct (merge_returns sales orders) as (st & Hrun & Hinv & Hc).
  exists st. destruct Hinv. repeat split; [done..|].
  apply loop_cond_false in Hc. lia.
Qed.

(** C10: inside the loop both [sale_index < len(sales)] and
    [order_index < len(orders)] hold, so the body takes neither the branch
    of line 70 nor that of line 74 but compares the two heads; in the run
    from the initial state no append comes from one of these two
    branches, and the loop returns with one of the inputs used up, after
    as many iterations as records were appended.  Once an input is used
    up, no iteration follows. *)
Theorem exhaustion_branches_unreachable sales orders :
  (∀ st, loop_cond sales orders st = true →
     sale_index st < length sales ∧ order_index st < length orders
     ∧ ∃ o s,
         orders !! order_index st = Some o ∧ sales !! sale_index st = Some s
         ∧ loop_body sales orders st =
             Done (if decide (timestamp o ≤ timestamp s)%Z
                   then append_order order_first o st
                   else append_sale sale_first s st))
  ∧ (∀ fuel st,
       length sales ≤ sale_index st ∨ length orders ≤ order_index st →
       merge_loop fuel sales orders st = Done st)
  ∧ ∃ st, merge sales orders = Done st
      ∧ Forall (λ d, taken d ≠ sales_exhausted ∧ taken d ≠ orders_exhausted)
               (merged st)
      ∧ length (merged st) = sale_index st + order_index st
      ∧ sale_index st ≤ length sales ∧ order_index st ≤ length orders
      ∧ (sale_index st = length sales ∨ order_index st = length orders).
Proof.
  split; [|split].
  - intros st Hc. pose proof Hc as [Hs Ho]%loop_cond_true.
    split; [done|]. split; [done|]. by apply loop_body_compares.
  - intros fuel st Hc%loop_cond_false. destruct fuel; cbn; by rewrite Hc.
  - destruct (merge_returns sales orders) as (st & Hrun & Hinv & Hc).
    exists st. destruct Hinv as [Hi Hj _ _ Hb _ Hl].
    repeat split; [done| |done..|].
    + eapply Forall_impl; [exact Hb|]. intros d [E|E]; rewrite E; done.
    + apply loop_cond_false in Hc. lia.
Qed.

(** C2: when the loop compares an order and a sale of equal time stamps,
    the body appends the order and leaves the sale for a later iteration;
    and on inputs sorted by time stamp, whenever a record of an order and
    a record of a sale with equal time stamps are both in the merged
    sequence, the record of the order comes first. *)
Theorem order_precedes_sale_on_tie sales orders :
  sorted_by_timestamp sales → sorted_by_timestamp orders →
  (∀ st o s,
     orders !! order_index st = Some o → sales !! sale_index st = Some s →
     timestamp o = timestamp s →
     loop_cond sales orders st = true
     ∧ loop_body sales orders st = Done (append_order order_first o st)
     ∧ sale_index (append_order order_first o st) = sale_index st
     ∧ merged (append_order order_first o st)
       = merged st
         ++ [Delta order_first (merchant_id o) (timestamp o) (amount o)])
  ∧ ∃ st, merge sales orders = Done st
      ∧ ∀ p q a b,
          merged st !! p = Some a → merged st !! q = Some b →
          origin_of (taken a) = replenishment →
          origin_of (taken b) = purchase →
          at_time a = at_time b →
          p < q.
Proof.
  intros Hss Hso. split.
  - intros st o s Eo Es Heq.
    assert (loop_cond sales orders st = true) as Hc.
    { apply loop_cond_true. split; by eapply lookup_lt_Some. }
    split; [done|].
    destruct (loop_body_compares sales orders st Hc) as (o' & s' & Eo' & Es' & ->).
    simplify_eq. rewrite decide_True by (by apply Z.eq_le_incl). done.
  - destruct (merge_returns_sorted sales orders Hss Hso)
      as (st & Hrun & _ & Hsorted & _).
    exists st. split; [done|]. intros p q a b Ha Hb Hoa Hob Heq.
    destruct (Nat.lt_trichotomy p q) as [Hlt|[->|Hgt]]; [done| |].
    + simplify_eq. congruence.
    + pose proof (inv_sale_then_order _ _ _ Hsorted q p b a Hgt Hb Ha Hob Hoa)
        as Hstrict.
      rewrite Heq in Hstrict. by apply Z.lt_irrefl in Hstrict.
Qed.

(** The merged sequence of sorted inputs ascends. *)
Lemma merged_ascending sales orders st :
  sorted_by_timestamp sales → sorted_by_timestamp orders →
  merge sales orders = Done st →
  ascending (at_time <$> merged st).
Proof.
  intros Hss Hso Hrun.
  destruct (merge_returns_sorted sales orders Hss Hso)
    as (st' & Hrun' & _ & Hsorted & _).
  rewrite Hrun in Hrun'. injection Hrun' as <-. by destruct Hsorted.
Qed.

(** The list of every entity in the dict ascends as well. *)
Lemma progressions_ascending sales orders st e pairs :
  sorted_by_timestamp sales → sorted_by_timestamp orders →
  merge sales orders = Done st →
  dict_get (inventory_progressions st) e = Some pairs →
  pairs = partition_of e (merged st) ∧ ascending pairs.*1.
Proof.
  intros Hss Hso Hrun Hget.
  destruct (merge_returns sales orders) as (st' & Hrun' & Hinv & _).
  rewrite Hrun in Hrun'. injection Hrun' as <-.
  rewrite (inv_dict _ _ _ Hinv e) in Hget.
  assert (pairs = partition_of e (merged st)) as ->
    by (destruct (partition_of e (merged st)); congruence).
  split; [done|]. unfold partition_of. rewrite <- list_fmap_compose.
  apply (ascending_filter_fmap at_time).
  by apply (merged_ascending sales orders).
Qed.

Lemma merge_ordered_per_entity sales orders :
  ∃ st, merge sales orders = Done st
    ∧ (sorted_by_timestamp sales → sorted_by_timestamp orders →
       (∀ p q a b,
          p < q → merged st !! p = Some a → merged st !! q = Some b →
          entity_id a = entity_id b → (at_time a ≤ at_time b)%Z)
       ∧ (∀ e pairs,
            dict_get (inventory_progressions st) e = Some pairs →
            ascending pairs.*1)).
Proof.
  destruct (merge_returns sales orders) as (st & Hrun & _ & _).
  exists st. split; [done|]. intros Hss Hso. split.
  - intros p q a b Hpq Ha Hb _.
    apply (merged_ascending sales orders st Hss Hso Hrun p q); [lia|..];
      apply list_lookup_fmap_Some; eauto.
  - intros e pairs Hget.
    by apply (progressions_ascending sales orders st e pairs).
Qed.

End merge_claims.

(** C7: the loop returns for every pair of inputs, sorted or not: it
    checks nothing and raises nothing.  When both inputs are sorted by
    time stamp, two appended triples of one entity have time stamps in the
    order in which they were appended, and so has the list of every
    entity in the dict.  An input that is not sorted gives a result that
    is not ordered. *)
Theorem merge_trusts_sortedness :
  (∀ num (sales orders : list (event num datetime)),
     ∃ st, merge sales orders = Done st
       ∧ (sorted_by_timestamp sales → sorted_by_timestamp orders →
          (∀ p q a b,
             p < q → merged st !! p = Some a → merged st !! q = Some b →
             entity_id a = entity_id b → (at_time a ≤ at_time b)%Z)
          ∧ (∀ e pairs,
               dict_get (inventory_progressions st) e = Some pairs →
               ascending pairs.*1)))
  ∧ ∃ st a b,
      ¬ sorted_by_timestamp Sample.unsorted_orders
      ∧ merge Sample.late_sale Sample.unsorted_orders = Done st
      ∧ merged st = [a; b]
      ∧ entity_id a = entity_id b
      ∧ (at_time b < at_time a)%Z.
Proof.
  split; [intros; apply merge_ordered_per_entity|].
  eexists _, _, _. split; [|split; [vm_compute; reflexivity|done]].
  intros Hs. specialize (Hs 0 1 7%Z 5%Z). cbn in Hs.
  assert (7 ≤ 5)%Z by (apply Hs; [lia|done..]). lia.
Qed.

(** C1: on the dump of the summary example, which has one order and then
    two successful purchases, the loop returns as soon as the order is
    appended: the merged sequence is the order alone and neither purchase
    is in it, although both inputs are sorted.  The only series that is
    plotted is the one level of the first merchant after its order. *)
Theorem merge_stops_at_first_exhausted_input :
  ∃ sales orders st,
    merge_input strptime_utc Sample.buyOffer Sample.producer
    = Done (sales, orders)
    ∧ length sales = 2 ∧ length orders = 1
    ∧ sorted_by_timestamp sales ∧ sorted_by_timestamp orders
    ∧ merge sales orders = Done st
    ∧ triple <$> merged st = order_change <$> orders
    ∧ from_origin purchase (merged st) = []
    ∧ sale_index st = 0
    ∧ create_inventory_graph strptime_utc Sample.mapping Sample.buyOffer
        Sample.producer
      = Done [StepCall [63660765600000000%Z] [5%Z] "Acme"].
Proof.
  eexists _, _, _. split; [vm_compute; reflexivity|].
  split; [done|]. split; [done|].
  split; [|split; [|split; [vm_compute; reflexivity|]]].
  - apply ascending_StronglySorted. cbn.
    repeat constructor; by vm_compute.
  - apply ascending_StronglySorted. cbn. repeat constructor.
  - split; [reflexivity|]. split; [reflexivity|]. split; [reflexivity|].
    vm_compute. reflexivity.
Qed.

(** ** The series *)

Lemma accumulate_from_length acc (l : list Z) :
  length (accumulate_from acc l) = length l.
Proof. revert acc. induction l; intros; cbn; by f_equal. Qed.

Lemma accumulate_from_lookup acc (l : list Z) k :
  k < length l →
  accumulate_from acc l !! k = Some (acc + sum_Z (take (S k) l))%Z.
Proof.
  revert acc k. induction l as [|x l IH]; intros acc k Hk; cbn in Hk; [lia|].
  destruct k as [|k].
  - cbn. rewrite take_0. cbn. f_equal. lia.
  - cbn [accumulate_from lookup list_lookup]. rewrite IH by lia.
    f_equal. cbn [take sum_Z]. lia.
Qed.

Lemma accumulate_length (l : list Z) : length (accumulate l) = length l.
Proof. destruct l; cbn; [done|]. by rewrite accumulate_from_length. Qed.

Lemma accumulate_lookup (l : list Z) k :
  k < length l → accumulate l !! k = Some (sum_Z (take (S k) l)).
Proof.
  destruct l as [|x l]; cbn; [lia|]. intros Hk. destruct k as [|k].
  - rewrite take_0. cbn. f_equal. lia.
  - cbn [lookup list_lookup]. rewrite accumulate_from_lookup by lia. done.
Qed.

Lemma dict_get_Some_key {V} (d : list (string * V)) (k : string) v :
  dict_get d k = Some v → k ∈ dict_keys d.
Proof.
  unfold dict_keys. induction d as [|[k' v'] d IH]; cbn; [done|].
  case_decide as E; [subst; intros; by left|]. intros. right. by apply IH.
Qed.

Section series.
Context {num : Type}.
Implicit Types (sales orders : list (event num datetime)).

(** C3: for every entity, the list that the dict of the loop holds is the
    partition of the merged sequence of that entity, in the order of the
    merged sequence; when it has a change, the series computed from it
    has as many dates and as many levels as the partition has pairs, the
    level at position [k] is the sum of the first [k] changes of the
    partition, and, the inputs being sorted by time stamp, the dates
    ascend. *)
Theorem inventory_levels_are_running_sums sales orders :
  ∃ st, merge sales orders = Done st
    ∧ ∀ e,
        let pairs := partition_of e (merged st) in
        dict_get (inventory_progressions st) e
        = match pairs with [] => None | _ => Some pairs end
        ∧ (e ∈ dict_keys (inventory_progressions st) ↔ pairs ≠ [])
        ∧ (pairs ≠ [] →
           ∃ dates levels,
             inventory_series
               (default [] (dict_get (inventory_progressions st) e))
             = Done (dates, levels)
             ∧ dates = pairs.*1
             ∧ length dates = length pairs
             ∧ length levels = length pairs
             ∧ (∀ k, 1 ≤ k ≤ length pairs →
                  levels !! (k - 1) = Some (sum_Z (take k pairs.*2)))
             ∧ (sorted_by_timestamp sales → sorted_by_timestamp orders →
                ascending dates)).
Proof.
  destruct (merge_returns sales orders) as (st & Hrun & Hinv & _).
  exists st. split; [done|]. intros e pairs.
  assert (dict_get (inventory_progressions st) e
          = match pairs with [] => None | _ => Some pairs end) as Hd.
  { rewrite (inv_dict _ _ _ Hinv e). subst pairs.
    by destruct (partition_of e (merged st)). }
  split; [done|]. split.
  - split.
    + intros [v Hv]%dict_get_key. rewrite Hv in Hd. by destruct pairs.
    + intros Hne. destruct pairs eqn:E; [done|].
      by apply dict_get_Some_key in Hd.
  - intros Hne. rewrite Hd.
    assert (sorted_by_timestamp sales → sorted_by_timestamp orders →
            ascending pairs.*1) as Hasc.
    { intros Hss Hso. unfold pairs, partition_of.
      rewrite <- list_fmap_compose.
      apply (ascending_filter_fmap at_time).
      by apply (merged_ascending sales orders). }
    clearbody pairs.
    exists (pairs.*1), (accumulate pairs.*2).
    split; [by destruct pairs|]. split; [done|].
    split; [by rewrite length_fmap|].
    split; [by rewrite accumulate_length, length_fmap|]. split.
    + intros k Hk. rewrite accumulate_lookup by (rewrite length_fmap; lia).
      by replace (S (k - 1)) with k by lia.
    + done.
Qed.

End series.

(** ** Time stamps *)

Section timestamps.
Context {num : Type} (strptime : string → option datetime).
Implicit Types (events sales orders : list (event num string)).

Lemma convert_timestamps_Done events :
  (∀ ev, ev ∈ events → is_Some (strptime (timestamp ev))) →
  convert_timestamps strptime events = Done (parsed strptime <$> events).
Proof.
  intros Hok. apply for_each_Done. intros ev Hev.
  destruct (Hok ev Hev) as [t Ht]. unfold parsed. by rewrite Ht.
Qed.

Lemma convert_timestamps_Raise events ev :
  ev ∈ events → strptime (timestamp ev) = None →
  convert_timestamps strptime events = Raise ValueError.
Proof.
  intros Hev Hbad. apply for_each_Raise.
  - intros x _. destruct (strptime (timestamp x)); eauto.
  - exists ev. by rewrite Hbad.
Qed.

Lemma convert_timestamps_cases events :
  convert_timestamps strptime events = Raise ValueError
  ∨ convert_timestamps strptime events = Done (parsed strptime <$> events).
Proof.
  induction events as [|ev events IH]; [by right|].
  unfold convert_timestamps in *. cbn.
  destruct (strptime (timestamp ev)) as [t|] eqn:E; cbn; [|by left].
  destruct IH as [-> | ->]; cbn; [by left|right].
  do 2 f_equal. unfold parsed. by rewrite E.
Qed.

(** The loop runs on the successful purchases and on all the orders. *)
Lemma merge_input_Done sales orders :
  (∀ ev, ev ∈ successful sales ++ orders →
         is_Some (strptime (timestamp ev))) →
  merge_input strptime sales orders
  = Done (parsed strptime <$> successful sales, parsed strptime <$> orders).
Proof.
  intros Hok. unfold merge_input. fold (successful sales).
  rewrite !convert_timestamps_Done; [done|..];
    intros ev Hev; apply Hok, elem_of_app; eauto.
Qed.

(** C9: if the time stamp of an order, or of a purchase with the
    code of success, does not parse, [create_inventory_graph] raises the
    error of [strptime] and returns no series: both lists are converted
    before the loop starts.  The purchases without the code of success
    are removed before the conversion. *)
Theorem unparseable_timestamp_aborts
    (merchant_id_mapping : list (string * string)) sales orders ev :
  (ev ∈ sales ∧ http_code ev = 200%Z) ∨ ev ∈ orders →
  strptime (timestamp ev) = None →
  merge_input strptime sales orders = Raise ValueError
  ∧ create_inventory_graph strptime merchant_id_mapping sales orders
    = Raise ValueError.
Proof.
  intros Hev Hbad.
  assert (merge_input strptime sales orders = Raise ValueError) as Hin.
  { unfold merge_input. destruct Hev as [[Hev Hok]|Hev].
    - rewrite (convert_timestamps_Raise
                 (filter (λ sale, http_code sale = 200%Z) sales) ev);
        [reflexivity| |done].
      by apply list_elem_of_filter.
    - destruct (convert_timestamps_cases
                  (filter (λ sale, http_code sale = 200%Z) sales)) as [->| ->];
        [done|].
      cbn. by rewrite (convert_timestamps_Raise orders ev). }
  split; [done|]. unfold create_inventory_graph. rewrite Hin. reflexivity.
Qed.

End timestamps.

(** The claim without the restriction to successful purchases fails: the
    time stamp of a failed purchase is never parsed, and the series of
    the example is plotted. *)
Lemma failed_purchase_is_not_parsed :
  Sample.failed_purchase ∈ Sample.failed_purchase :: Sample.buyOffer
  ∧ strptime_utc (timestamp Sample.failed_purchase) = None
  ∧ create_inventory_graph strptime_utc Sample.mapping
      (Sample.failed_purchase :: Sample.buyOffer) Sample.producer
    = Done [StepCall [63660765600000000%Z] [5%Z] "Acme"].
Proof. split; [by left|]. split; vm_compute; reflexivity. Qed.

(** Line 92 looks the label of every series up in the mapping: a merged
    change of a merchant that the mapping does not know ends the plot. *)
Example unknown_merchant_has_no_label :
  create_inventory_graph strptime_utc Sample.mapping
    [Sample.unknown_purchase] (Sample.producer ++ [Sample.late_order])
  = Raise KeyError.
Proof. vm_compute. reflexivity. Qed.

Lemma unparseable_timestamp_aborts_witness :
  strptime_utc (timestamp Sample.unparseable_purchase) = None
  ∧ create_inventory_graph strptime_utc Sample.mapping
      (Sample.unparseable_purchase :: Sample.buyOffer) Sample.producer
    = Raise ValueError.
Proof.
  assert (strptime_utc (timestamp Sample.unparseable_purchase) = None) as Hbad
    by (vm_compute; reflexivity).
  split; [exact Hbad|].
  apply (unparseable_timestamp_aborts strptime_utc Sample.mapping
           (Sample.unparseable_purchase :: Sample.buyOffer) Sample.producer
           Sample.unparseable_purchase).
  - left. split; [by left|reflexivity].
  - exact Hbad.
Defined.

(** ** Outcome codes *)

Section outcome.
Context `{PyNumber num} (strptime : string → option datetime).
Implicit Types (buyOffer producer : list (event num string)).

(** C6: every purchase event adds [amount * price] to the revenue of its
    merchant, whatever its [http_code]; the loop runs on the purchases
    with [http_code = 200] only, so every record of the merged sequence
    that comes from a purchase comes from a successful one; the orders
    all enter the loop, whatever their [http_code]. *)
Theorem outcome_filter_asymmetry buyOffer producer :
  (∀ l1 ev l2, buyOffer = l1 ++ ev :: l2 →
     (dd_getitem (revenue_of buyOffer) (merchant_id ev)).1
     = foldl py_add
         (py_add (total purchase_value (merchant_id ev) l1) (purchase_value ev))
         (purchase_value <$> events_of (merchant_id ev) l2))
  ∧ ((∀ ev, ev ∈ successful buyOffer ++ producer →
            is_Some (strptime (timestamp ev))) →
     ∃ sales orders st,
       merge_input strptime buyOffer producer = Done (sales, orders)
       ∧ sales = parsed strptime <$> successful buyOffer
       ∧ Forall (λ sale, http_code sale = 200%Z) sales
       ∧ orders = parsed strptime <$> producer
       ∧ merge sales orders = Done st
       ∧ ∀ d, d ∈ merged st → origin_of (taken d) = purchase →
           ∃ sale, sale ∈ buyOffer ∧ http_code sale = 200%Z
                   ∧ triple d = sale_change (parsed strptime sale)).
Proof.
  split.
  - intros l1 ev l2 ->. rewrite dd_getitem_fst.
    unfold revenue_of. rewrite sum_into_read. unfold total, events_of.
    rewrite filter_app, filter_cons, decide_True by done.
    by rewrite fmap_app, foldl_app.
  - intros Hok.
    destruct (merge_returns (parsed strptime <$> successful buyOffer)
                (parsed strptime <$> producer)) as (st & Hrun & Hinv & _).
    eexists _, _, st. split; [by apply merge_input_Done|].
    split; [done|]. split; [|split; [done|split; [done|]]].
    + apply Forall_fmap, Forall_forall.
      by intros sale [Hc _]%list_elem_of_filter.
    + intros d Hd Hor.
      assert (triple d ∈ triple <$> from_origin purchase (merged st)) as Hin.
      { apply list_elem_of_fmap_2. by apply list_elem_of_filter. }
      rewrite (inv_sales _ _ _ Hinv) in Hin.
      apply subseteq_take in Hin.
      apply list_elem_of_fmap in Hin as (sale' & -> & Hsale').
      apply list_elem_of_fmap in Hsale' as (sale & -> & Hsale).
      apply list_elem_of_filter in Hsale as [Hc Hsale]. eauto.
Qed.

End outcome.

(** * Instances on the sample dumps *)

Ltac solve_sorted :=
  apply ascending_StronglySorted; cbn; repeat (constructor; try done).

Lemma exhaustion_branches_unreachable_witness :
  ∃ st, merge Sample.sales_dt Sample.orders_dt = Done st
    ∧ taken <$> merged st = [order_first; sale_first; sale_first]
    ∧ sale_index st = 2 ∧ order_index st = 1.
Proof.
  destruct (exhaustion_branches_unreachable Sample.sales_dt Sample.orders_dt)
    as (_ & _ & st & Hrun & _).
  exists st. split; [exact Hrun|].
  vm_compute in Hrun. injection Hrun as <-. repeat split.
Defined.

Lemma order_precedes_sale_on_tie_witness :
  sorted_by_timestamp Sample.sales_dt ∧ sorted_by_timestamp Sample.orders_dt
  ∧ ∃ st, merge Sample.sales_dt Sample.orders_dt = Done st
      ∧ ∀ p q a b,
          merged st !! p = Some a → merged st !! q = Some b →
          origin_of (taken a) = replenishment →
          origin_of (taken b) = purchase →
          at_time a = at_time b →
          p < q.
Proof.
  assert (sorted_by_timestamp Sample.sales_dt) as Hss by solve_sorted.
  assert (sorted_by_timestamp Sample.orders_dt) as Hso by solve_sorted.
  split; [exact Hss|]. split; [exact Hso|].
  exact (proj2 (order_precedes_sale_on_tie Sample.sales_dt Sample.orders_dt
                  Hss Hso)).
Defined.

Lemma inventory_levels_are_running_sums_witness :
  ∃ st, merge Sample.sales_dt Sample.orders_dt = Done st
    ∧ partition_of "m1" (merged st) = [(10, 5); (10, -2)]%Z
    ∧ inventory_series
        (default [] (dict_get (inventory_progressions st) "m1"))
      = Done ([10; 10]%Z, [5; 3]%Z).
Proof.
  destruct (inventory_levels_are_running_sums Sample.sales_dt Sample.orders_dt)
    as (st & Hrun & Hseries).
  exists st. split; [exact Hrun|].
  destruct (Hseries "m1"%string) as (Hdict & _ & _).
  vm_compute in Hrun. injection Hrun as <-.
  split; [reflexivity|]. rewrite Hdict. reflexivity.
Defined.

Lemma merge_trusts_sortedness_witness :
  sorted_by_timestamp Sample.sales_dt ∧ sorted_by_timestamp Sample.orders_dt
  ∧ ∃ st, merge Sample.sales_dt Sample.orders_dt = Done st
      ∧ ∀ p q a b,
          p < q → merged st !! p = Some a → merged st !! q = Some b →
          entity_id a = entity_id b → (at_time a ≤ at_time b)%Z.
Proof.
  assert (sorted_by_timestamp Sample.sales_dt) as Hss by solve_sorted.
  assert (sorted_by_timestamp Sample.orders_dt) as Hso by solve_sorted.
  split; [exact Hss|]. split; [exact Hso|].
  destruct (proj1 merge_trusts_sortedness Z Sample.sales_dt Sample.orders_dt)
    as (st & Hrun & Hord).
  exists st. split; [exact Hrun|]. exact (proj1 (Hord Hss Hso)).
Defined.

Lemma outcome_filter_asymmetry_witness :
  (∀ ev, ev ∈ successful (Sample.failed_purchase :: Sample.buyOffer)
              ++ Sample.producer →
         is_Some (strptime_utc (timestamp ev)))
  ∧ (dd_getitem (revenue_of (Sample.failed_purchase :: Sample.buyOffer))
       "m1").1 = 25%Z
  ∧ merge_input strptime_utc (Sample.failed_purchase :: Sample.buyOffer)
      Sample.producer
    = merge_input strptime_utc Sample.buyOffer Sample.producer.
Proof.
  assert (∀ ev, ev ∈ successful (Sample.failed_purchase :: Sample.buyOffer)
                     ++ Sample.producer →
                is_Some (strptime_utc (timestamp ev))) as Hok.
  { apply Forall_forall. apply (bool_decide_unpack _). vm_compute. exact I. }
  split; [exact Hok|].
  destruct (outcome_filter_asymmetry strptime_utc
              (Sample.failed_purchase :: Sample.buyOffer) Sample.producer)
    as [Hrev Hmerge].
  split.
  - etrans; [exact (Hrev [] Sample.failed_purchase Sample.buyOffer eq_refl)|].
    vm_compute. reflexivity.
  - destruct (Hmerge Hok) as (sales & orders & st & -> & -> & _ & -> & _).
    vm_compute. reflexivity.
Defined.

(** * Further properties of the script *)

(** ** [sorted] and [list.sort] *)

Section sorting_facts.
Context {A K : Type} (le : K → K → bool) (key : A → K).
Hypothesis le_total : ∀ a b, le a b = false → le b a = true.



(** Equal keys keep their order. *)
Lemma insert_sorted_filter `{EqDecision K} (k : K) (x : A) (l : list A) :
  (∀ a, le a a = true) →
  filter (λ a, key a = k) (insert_sorted (λ a b, le (key a) (key b)) x l)
  = filter (λ a, key a = k) (x :: l).
Proof.
  intros Hrefl. induction l as [|y l IH]; cbn; [done|].
  destruct (le (key x) (key y)) eqn:E; [done|].
  rewrite (filter_cons _ y), IH, !filter_cons.
  destruct (decide (key x = k)) as [Hx|Hx], (decide (key y = k)) as [Hy|Hy];
    try done.
  rewrite Hx, Hy, Hrefl in E. done.
Qed.

Lemma py_sorted_stable `{EqDecision K} (k : K) (l : list A) :
  (∀ a, le a a = true) →
  filter (λ a, key a = k) (py_sorted le key l) = filter (λ a, key a = k) l.
Proof.
  intros Hrefl. unfold py_sorted.
  induction l as [|x l IH]; [done|]. cbn [foldr].
  rewrite insert_sorted_filter by done. rewrite !filter_cons, IH. done.
Qed.

End sorting_facts.




Lemma name_le_refl (a : option string) : name_le a a = true.
Proof.
  destruct a as [x|]; cbn; [|done]. by destruct (String.leb_total x x).
Qed.


(** ** Grouping with [defaultdict(list)] *)

Lemma dict_keys_dd_append {V} (d : list (string * list V)) (k : string) v :
  dict_keys (dd_append d k v) =
    if decide (k ∈ dict_keys d) then dict_keys d else dict_keys d ++ [k].
Proof.
  unfold dict_keys. induction d as [|[k' l] d IH]; cbn.
  - rewrite decide_False; [done|]. apply not_elem_of_nil.
  - destruct (decide (k = k')) as [->|Hne]; cbn.
    + rewrite decide_True; [done|]. by left.
    + rewrite IH. destruct (decide (k ∈ d.*1)) as [Hin|Hout].
      * rewrite decide_True; [done|]. by right.
      * rewrite decide_False; [done|].
        intros [?|?]%elem_of_cons; congruence.
Qed.

Lemma first_seen_snoc (keys : list string) (k : string) :
  first_seen (keys ++ [k]) =
    if decide (k ∈ first_seen keys) then first_seen keys
    else first_seen keys ++ [k].
Proof. unfold first_seen. by rewrite foldl_snoc. Qed.

Lemma first_seen_elem (keys : list string) (k : string) :
  k ∈ first_seen keys ↔ k ∈ keys.
Proof.
  induction keys as [|k' keys IH] using rev_ind; [done|].
  rewrite first_seen_snoc, elem_of_app, list_elem_of_singleton, <- IH.
  case_decide as E.
  - split; [by left|]. intros [?| ->]; done.
  - by rewrite elem_of_app, list_elem_of_singleton.
Qed.

Lemma first_seen_NoDup (keys : list string) : NoDup (first_seen keys).
Proof.
  induction keys as [|k keys IH] using rev_ind; [constructor|].
  rewrite first_seen_snoc. case_decide as E; [done|].
  apply NoDup_app. split; [done|]. split; [|apply NoDup_singleton].
  intros x Hx ->%list_elem_of_singleton. done.
Qed.

(** A dict is the list of its keys with their values. *)
Lemma dict_items {W} (d : list (string * W)) (f : string → W) :
  NoDup (dict_keys d) →
  (∀ k, k ∈ dict_keys d → dict_get d k = Some (f k)) →
  d = (λ k, (k, f k)) <$> dict_keys d.
Proof.
  unfold dict_keys. induction d as [|[k v] d IH]; intros Hnd Hget; [done|].
  cbn in *. apply NoDup_cons in Hnd as [Hk Hnd]. f_equal.
  - specialize (Hget k). rewrite decide_True in Hget by done.
    f_equal. assert (Some v = Some (f k)) as [= ->] by (apply Hget; by left).
    done.
  - apply IH; [done|]. intros k' Hk'. specialize (Hget k').
    rewrite decide_False in Hget by congruence. apply Hget. by right.
Qed.

Section grouping.
Context {A V : Type} (key : A → string) (value : A → V).

Lemma group_by_snoc (l : list A) (x : A) :
  group_by key value (l ++ [x])
  = dd_append (group_by key value l) (key x) (value x).
Proof. unfold group_by. by rewrite foldl_snoc. Qed.

Lemma group_by_keys (l : list A) :
  dict_keys (group_by key value l) = first_seen (key <$> l).
Proof.
  induction l as [|x l IH] using rev_ind; [done|].
  rewrite group_by_snoc, dict_keys_dd_append, IH.
  rewrite fmap_app. change (key <$> [x]) with [key x].
  by rewrite first_seen_snoc.
Qed.

Lemma group_by_get (l : list A) (k : string) :
  dict_get (group_by key value l) k =
    match values_of key value k l with
    | [] => None
    | vs => Some vs
    end.
Proof.
  induction l as [|x l IH] using rev_ind; [done|].
  rewrite group_by_snoc, dict_get_dd_append. unfold values_of in *.
  rewrite filter_app, fmap_app, filter_cons, filter_nil.
  destruct (decide (k = key x)) as [->|Hne].
  - rewrite decide_True by done. rewrite IH. cbn.
    by destruct (value <$> filter _ l).
  - rewrite decide_False by done. cbn. by rewrite app_nil_r.
Qed.

Lemma group_by_items (l : list A) :
  group_by key value l
  = (λ k, (k, values_of key value k l)) <$> first_seen (key <$> l).
Proof.
  rewrite <- group_by_keys. apply dict_items.
  - rewrite group_by_keys. apply first_seen_NoDup.
  - intros k Hk. rewrite group_by_get.
    rewrite group_by_keys, first_seen_elem in Hk.
    apply list_elem_of_fmap in Hk as (x & -> & Hx).
    unfold values_of. destruct (filter _ l) eqn:E; [|done].
    assert (x ∈ filter (λ y, key y = key x) l) as Hin
      by (by apply list_elem_of_filter).
    rewrite E in Hin. by apply elem_of_nil in Hin.
Qed.

End grouping.

(** ** The table of [results.csv] *)

Section table.
Context `{PyNumber num} {T : Type}.
Implicit Types (mapping : list (string * string)).
Implicit Types (buyOffer holding producer : list (event num T)).


(** X2: merchants with the same name keep, in the table, the order they
    have in the mapping: the sort is stable. *)
Theorem results_csv_keeps_order_of_equal_names
    mapping buyOffer holding producer (name : string) :
  ∃ merchants,
    results_csv mapping buyOffer holding producer
    = Done (header ["name"; "revenue"; "holding_cost"; "order_cost"; "profit"]
            :: (summary_row mapping buyOffer holding producer <$> merchants))
    ∧ merchants ≡ₚ dict_keys mapping
    ∧ filter (λ m, dict_get mapping m = Some name) merchants
      = filter (λ m, dict_get mapping m = Some name) (dict_keys mapping).
Proof.
  exists (py_sorted name_le (dict_get mapping) (dict_keys mapping)).
  split; [apply results_csv_spec|]. split; [apply py_sorted_perm|].
  apply (py_sorted_stable name_le (dict_get mapping) (Some name)).
  apply name_le_refl.
Qed.

(** X3: the sum of a merchant over a dump in two parts is the sum over
    the first part, continued over the second: the accumulators can be
    filled part by part. *)
Theorem sum_into_app (value : event num T → num)
    (events1 events2 : list (event num T)) (e : string) :
  sum_into value ∅ (events1 ++ events2)
  = sum_into value (sum_into value ∅ events1) events2
  ∧ (dd_getitem (sum_into value ∅ (events1 ++ events2)) e).1
    = foldl py_add (dd_getitem (sum_into value ∅ events1) e).1
        (value <$> events_of e events2).
Proof.
  split; [unfold sum_into; by rewrite foldl_app|].
  rewrite !dd_getitem_fst, !sum_into_read. unfold total, events_of.
  by rewrite filter_app, fmap_app, foldl_app.
Qed.

End table.

(** ** [convert_timestamps] *)

Section conversion.
Context {num : Type} (strptime : string → option datetime).


End conversion.

(** ** The inventory graph *)

Lemma dict_get_None_key {V} (d : list (string * V)) (k : string) :
  k ∉ dict_keys d → dict_get d k = None.
Proof.
  intros Hk. destruct (dict_get d k) eqn:E; [|done].
  by apply dict_get_Some_key in E.
Qed.

Section inventory_graph.
Context {num : Type}.
Implicit Types (sales orders : list (event num datetime)) (st : loop_state).

(** The dict of the loop is the merged sequence grouped by entity. *)
Lemma merge_groups sales orders :
  ∃ st, merge sales orders = Done st
    ∧ inventory_progressions st
      = group_by entity_id (λ d, (at_time d, change d)) (merged st).
Proof.
  destruct (merge_invariant
              (λ st, inventory_progressions st
                     = group_by entity_id (λ d, (at_time d, change d))
                         (merged st)) sales orders) as (st & Hrun & HI & _).
  - done.
  - intros st o s HI _ _ _.
    cbn [append_order inventory_progressions merged].
    by rewrite group_by_snoc, HI.
  - intros st o s HI _ _ _.
    cbn [append_sale inventory_progressions merged].
    by rewrite group_by_snoc, HI.
  - by exists st.
Qed.

Lemma merge_empty sales orders :
  sales = [] ∨ orders = [] → merge sales orders = Done (LoopState 0 0 [] []).
Proof.
  intros Hempty. unfold merge.
  assert (loop_cond sales orders (LoopState 0 0 [] []) = false) as Hc.
  { apply loop_cond_false. cbn. destruct Hempty as [-> | ->]; cbn; lia. }
  destruct (length sales + length orders); cbn [merge_loop]; by rewrite Hc.
Qed.

(** X5: when both inputs have a record, the loop appends at least one
    record and returns with exactly one input used up: at least one record
    of the other input is never appended. *)
Theorem merge_leaves_a_record sales orders :
  sales ≠ [] → orders ≠ [] →
  ∃ st, merge sales orders = Done st
    ∧ ((sale_index st = length sales ∧ order_index st < length orders)
       ∨ (order_index st = length orders ∧ sale_index st < length sales))
    ∧ 0 < length (merged st) < length sales + length orders.
Proof.
  intros Hs Ho.
  destruct (merge_invariant
              (λ st, merge_inv sales orders st
                     ∧ (sale_index st < length sales
                        ∨ order_index st < length orders))
              sales orders) as (st & Hrun & [Hinv Hleft] & Hc).
  - split; [apply merge_inv_init|]. left. cbn. destruct sales; cbn; [done|lia].
  - intros st o s [Hinv _] Eo Es _. split; [by apply merge_inv_order|].
    left. cbn. by eapply lookup_lt_Some.
  - intros st o s [Hinv _] Eo Es _. split; [by apply merge_inv_sale|].
    right. cbn. by eapply lookup_lt_Some.
  - exists st. split; [done|]. apply loop_cond_false in Hc.
    destruct Hinv as [Hi Hj _ _ _ _ Hl].
    assert (0 < length sales) by (destruct sales; cbn; [done|lia]).
    assert (0 < length orders) by (destruct orders; cbn; [done|lia]).
    split; lia.
Qed.

End inventory_graph.

Section inventory_graph_result.
Context {num : Type} (strptime : string → option datetime).
Implicit Types (sales orders : list (event num string)).
Implicit Types (mapping : list (string * string)).

Lemma plot_merchant_eval mapping (log : list delta) (e : string) :
  e ∈ entity_id <$> log →
  plot_merchant mapping
    (group_by entity_id (λ d, (at_time d, change d)) log) e
  = match dict_get mapping e with
    | Some name => Done (series_call mapping log e)
    | None => Raise KeyError
    end.
Proof.
  intros (d & -> & Hd)%list_elem_of_fmap. unfold plot_merchant.
  rewrite group_by_get. unfold values_of, series_call, partition_of.
  destruct (filter _ log) as [|d' ds] eqn:E.
  { assert (d ∈ filter (λ x, entity_id x = entity_id d) log) as Hin
      by (by apply list_elem_of_filter).
    rewrite E in Hin. by apply elem_of_nil in Hin. }
  cbn. unfold dict_getitem. by destruct (dict_get mapping (entity_id d)).
Qed.

(** The loop of lines 89-92 over the grouped merged sequence. *)
Lemma plot_entities_eval mapping (log : list delta) :
  for_each
    (plot_merchant mapping
       (group_by entity_id (λ d, (at_time d, change d)) log))
    (first_seen (entity_id <$> log))
  = if decide (Forall (λ e, e ∈ dict_keys mapping)
                 (first_seen (entity_id <$> log)))
    then Done (series_call mapping log <$> first_seen (entity_id <$> log))
    else Raise KeyError.
Proof.
  case_decide as Hall.
  - apply for_each_Done. intros e He.
    apply (proj1 (first_seen_elem _ _)) in He.
    rewrite plot_merchant_eval by done.
    rewrite Forall_forall in Hall.
    destruct (dict_get_key mapping e) as [name ->]; [|done].
    apply Hall. by apply (proj2 (first_seen_elem _ _)).
  - apply for_each_Raise.
    + intros e He. apply (proj1 (first_seen_elem _ _)) in He.
      rewrite plot_merchant_eval by done.
      destruct (dict_get mapping e); eauto.
    + apply not_Forall_Exists in Hall; [|apply _].
      apply Exists_exists in Hall as (e & He & Hout).
      exists e. split; [done|]. apply (proj1 (first_seen_elem _ _)) in He.
      rewrite plot_merchant_eval by done.
      by rewrite dict_get_None_key.
Qed.

(** X6: when the time stamps of the orders and of the successful
    purchases parse, [create_inventory_graph] plots one series for each
    entity of the merged sequence, in the order in which the entities are
    first appended, each with the dates and running sums of its partition
    and the name of the entity as label; if one of these entities is not a
    key of the mapping, it raises [KeyError] instead. *)
Theorem create_inventory_graph_result mapping sales orders :
  (∀ ev, ev ∈ successful sales ++ orders →
         is_Some (strptime (timestamp ev))) →
  ∃ st,
    merge (parsed strptime <$> successful sales) (parsed strptime <$> orders)
    = Done st
    ∧ create_inventory_graph strptime mapping sales orders
      = (let entities := first_seen (entity_id <$> merged st) in
         if decide (Forall (λ e, e ∈ dict_keys mapping) entities)
         then Done (series_call mapping (merged st) <$> entities)
         else Raise KeyError).
Proof.
  intros Hok.
  destruct (merge_groups (parsed strptime <$> successful sales)
              (parsed strptime <$> orders)) as (st & Hrun & Hgroup).
  exists st. split; [done|]. unfold create_inventory_graph.
  rewrite merge_input_Done by done. cbn [mbind result_bind].
  rewrite Hrun. cbn [mbind result_bind].
  rewrite Hgroup, group_by_keys. apply plot_entities_eval.
Qed.

(** X7: when there is no order, or no successful purchase, the loop is
    never entered and no series is plotted, whatever the other topic
    holds. *)
Theorem create_inventory_graph_needs_both_topics mapping sales orders :
  (∀ ev, ev ∈ successful sales ++ orders →
         is_Some (strptime (timestamp ev))) →
  successful sales = [] ∨ orders = [] →
  create_inventory_graph strptime mapping sales orders = Done [].
Proof.
  intros Hok Hempty. unfold create_inventory_graph.
  rewrite merge_input_Done by done. cbn.
  rewrite merge_empty; [done|].
  destruct Hempty as [-> | ->]; [by left|by right].
Qed.

End inventory_graph_result.

(** ** The price graph *)

Lemma for_each_fmap {A B C} (f : B → result C) (g : A → B) (l : list A) :
  for_each f (g <$> l) = for_each (λ x, f (g x)) l.
Proof. induction l as [|x l IH]; cbn; [done|]. by rewrite IH. Qed.



Section price_graph.
Context {num : Type} (strptime : string → option datetime).
Implicit Types (addOffer updateOffer : list (event num string)).
Implicit Types (mapping : list (string * string)).

Lemma sorted_offer_updates_Done addOffer updateOffer :
  (∀ ev, ev ∈ successful (addOffer ++ updateOffer) →
         is_Some (strptime (timestamp ev))) →
  sorted_offer_updates strptime addOffer updateOffer
  = Done (updates_by_time strptime addOffer updateOffer).
Proof.
  intros Hok. unfold sorted_offer_updates, updates_by_time.
  fold (successful (addOffer ++ updateOffer)).
  by rewrite convert_timestamps_Done.
Qed.

Lemma plot_prices_eval mapping (updates : list (event num datetime)) m :
  m ∈ merchant_id <$> updates →
  plot_prices mapping
    (m, values_of merchant_id (λ o, (price o, timestamp o)) m updates)
  = match dict_get mapping m with
    | Some name => Done (price_series_call mapping updates m)
    | None => Raise KeyError
    end.
Proof.
  intros (o & -> & Ho)%list_elem_of_fmap.
  unfold plot_prices, values_of, price_series_call. cbn [fst snd].
  destruct (filter _ updates) as [|o' os] eqn:E.
  { assert (o ∈ filter (λ x, merchant_id x = merchant_id o) updates) as Hin
      by (by apply list_elem_of_filter).
    rewrite E in Hin. by apply elem_of_nil in Hin. }
  unfold unzip_prices. cbn [fmap list_fmap]. cbn [mbind result_bind].
  rewrite <- !list_fmap_compose. unfold dict_getitem.
  by destruct (dict_get mapping (merchant_id o)).
Qed.

(** The loop of lines 153-155 over the grouped offers. *)
Lemma plot_price_series_eval mapping (updates : list (event num datetime)) :
  for_each (plot_prices mapping)
    (group_by merchant_id (λ o, (price o, timestamp o)) updates)
  = if decide (Forall (λ m, m ∈ dict_keys mapping)
                 (first_seen (merchant_id <$> updates)))
    then Done (price_series_call mapping updates
                 <$> first_seen (merchant_id <$> updates))
    else Raise KeyError.
Proof.
  rewrite group_by_items, for_each_fmap. case_decide as Hall.
  - apply for_each_Done. intros m Hm.
    apply (proj1 (first_seen_elem _ _)) in Hm.
    rewrite plot_prices_eval by done. rewrite Forall_forall in Hall.
    destruct (dict_get_key mapping m) as [name ->]; [|done].
    apply Hall. by apply (proj2 (first_seen_elem _ _)).
  - apply for_each_Raise.
    + intros m Hm. apply (proj1 (first_seen_elem _ _)) in Hm.
      rewrite plot_prices_eval by done. destruct (dict_get mapping m); eauto.
    + apply not_Forall_Exists in Hall; [|apply _].
      apply Exists_exists in Hall as (m & Hm & Hout).
      exists m. split; [done|]. apply (proj1 (first_seen_elem _ _)) in Hm.
      rewrite plot_prices_eval by done. by rewrite dict_get_None_key.
Qed.

(** X8: when the time stamps of the successful offers parse,
    [create_price_graph_reduced] plots one series for each merchant with a
    successful offer, in the order in which the merchants first occur in
    the offers sorted by time, each with the prices and times of its offers
    in that order and the name of the merchant as label; if one of these
    merchants is not a key of the mapping, it raises [KeyError]
    instead. *)
Theorem create_price_graph_reduced_result mapping addOffer updateOffer :
  (∀ ev, ev ∈ successful (addOffer ++ updateOffer) →
         is_Some (strptime (timestamp ev))) →
  create_price_graph_reduced strptime mapping addOffer updateOffer
  = (let updates := updates_by_time strptime addOffer updateOffer in
     let merchants := first_seen (merchant_id <$> updates) in
     if decide (Forall (λ m, m ∈ dict_keys mapping) merchants)
     then Done (price_series_call mapping updates <$> merchants)
     else Raise KeyError).
Proof.
  intros Hok. unfold create_price_graph_reduced.
  rewrite sorted_offer_updates_Done by done.
  cbn [mbind result_bind]. cbn zeta.
  apply plot_price_series_eval.
Qed.


(** X10: an offer without the code of success is dropped before the
    conversion and is not plotted, and it does not matter in which of the
    two topics an offer is; a successful offer whose time stamp does not
    parse makes the function raise [ValueError] and plot nothing. *)
Theorem create_price_graph_reduced_filters mapping addOffer updateOffer :
  create_price_graph_reduced strptime mapping addOffer updateOffer
  = create_price_graph_reduced strptime mapping
      (successful (addOffer ++ updateOffer)) []
  ∧ ∀ ev, ev ∈ addOffer ++ updateOffer → http_code ev = 200%Z →
      strptime (timestamp ev) = None →
      create_price_graph_reduced strptime mapping addOffer updateOffer
      = Raise ValueError.
Proof.
  split.
  - unfold create_price_graph_reduced, sorted_offer_updates.
    rewrite app_nil_r. unfold successful.
    by rewrite list_filter_filter_l.
  - intros ev Hev Hok Hbad.
    unfold create_price_graph_reduced, sorted_offer_updates.
    rewrite (convert_timestamps_Raise strptime _ ev); [done| |done].
    by apply list_elem_of_filter.
Qed.

End price_graph.

(** ** The whole run *)


(** * Further instances on the sample dumps *)

Ltac solve_parses :=
  apply Forall_forall; apply (bool_decide_unpack _); vm_compute; exact I.



Lemma merge_leaves_a_record_witness :
  Sample.sales_dt ≠ [] ∧ Sample.orders_dt ≠ []
  ∧ ∃ st, merge Sample.sales_dt Sample.orders_dt = Done st
      ∧ sale_index st = 2 ∧ order_index st = 1
      ∧ 0 < length (merged st) < 4.
Proof.
  assert (Sample.sales_dt ≠ []) as Hs by discriminate.
  assert (Sample.orders_dt ≠ []) as Ho by discriminate.
  split; [exact Hs|]. split; [exact Ho|].
  destruct (merge_leaves_a_record Sample.sales_dt Sample.orders_dt Hs Ho)
    as (st & Hrun & _ & Hlen).
  exists st. split; [exact Hrun|].
  vm_compute in Hrun. injection Hrun as <-.
  split; [reflexivity|]. split; [reflexivity|]. exact Hlen.
Defined.

Lemma create_inventory_graph_result_witness :
  (∀ ev, ev ∈ successful Sample.buyOffer ++ Sample.producer →
         is_Some (strptime_utc (timestamp ev)))
  ∧ create_inventory_graph strptime_utc Sample.mapping Sample.buyOffer
      Sample.producer
    = Done [StepCall [63660765600000000%Z] [5%Z] "Acme"].
Proof.
  assert (∀ ev, ev ∈ successful Sample.buyOffer ++ Sample.producer →
                is_Some (strptime_utc (timestamp ev))) as Hok
    by solve_parses.
  split; [exact Hok|].
  destruct (create_inventory_graph_result strptime_utc Sample.mapping
              Sample.buyOffer Sample.producer Hok) as (st & Hrun & ->).
  vm_compute in Hrun. injection Hrun as <-. vm_compute. reflexivity.
Defined.

Lemma create_inventory_graph_needs_both_topics_witness :
  (∀ ev, ev ∈ successful Sample.buyOffer ++ [] →
         is_Some (strptime_utc (timestamp ev)))
  ∧ successful Sample.buyOffer ≠ []
  ∧ create_inventory_graph strptime_utc Sample.mapping Sample.buyOffer []
    = Done [].
Proof.
  assert (∀ ev, ev ∈ successful Sample.buyOffer ++ [] →
                is_Some (strptime_utc (timestamp ev))) as Hok
    by solve_parses.
  split; [exact Hok|]. split; [discriminate|].
  apply (create_inventory_graph_needs_both_topics strptime_utc Sample.mapping
           Sample.buyOffer [] Hok).
  right. reflexivity.
Defined.

Lemma create_price_graph_reduced_result_witness :
  (∀ ev, ev ∈ successful (Market.addOffer ++ Market.updateOffer) →
         is_Some (strptime_utc (timestamp ev)))
  ∧ create_price_graph_reduced strptime_utc Sample.mapping Market.addOffer
      Market.updateOffer
    = Done [PriceCall [63660765600000000%Z; 63660765602000000%Z]
                      [20%Z; 18%Z] "Acme";
            PriceCall [63660765601500000%Z; 63660765602000000%Z]
                      [30%Z; 25%Z] "Bolt"].
Proof.
  assert (∀ ev, ev ∈ successful (Market.addOffer ++ Market.updateOffer) →
                is_Some (strptime_utc (timestamp ev))) as Hok
    by solve_parses.
  split; [exact Hok|].
  rewrite (create_price_graph_reduced_result strptime_utc Sample.mapping
             Market.addOffer Market.updateOffer Hok).
  vm_compute. reflexivity.
Defined.

Lemma create_price_graph_reduced_filters_witness :
  Sample.unparseable_purchase ∈ Market.addOffer ++ [Sample.unparseable_purchase]
  ∧ http_code Sample.unparseable_purchase = 200%Z
  ∧ strptime_utc (timestamp Sample.unparseable_purchase) = None
  ∧ create_price_graph_reduced strptime_utc Sample.mapping Market.addOffer
      [Sample.unparseable_purchase]
    = Raise ValueError.
Proof.
  assert (Sample.unparseable_purchase
          ∈ Market.addOffer ++ [Sample.unparseable_purchase]) as Hin
    by (apply elem_of_app; right; left).
  assert (strptime_utc (timestamp Sample.unparseable_purchase) = None) as Hbad
    by (vm_compute; reflexivity).
  split; [exact Hin|]. split; [reflexivity|]. split; [exact Hbad|].
  exact (proj2 (create_price_graph_reduced_filters strptime_utc Sample.mapping
                  Market.addOffer [Sample.unparseable_purchase])
           Sample.unparseable_purchase Hin eq_refl Hbad).
Defined.


(** X13: on inputs sorted by time stamp the merged sequence ascends as a
    whole, across the entities, and no record that the loop leaves behind
    in either input is earlier than a record it has appended. *)
Theorem merged_sequence_is_a_time_prefix {num}
    (sales orders : list (event num datetime)) :
  sorted_by_timestamp sales → sorted_by_timestamp orders →
  ∃ st, merge sales orders = Done st
    ∧ ascending (at_time <$> merged st)
    ∧ (∀ d k o, d ∈ merged st → order_index st ≤ k → orders !! k = Some o →
         (at_time d ≤ timestamp o)%Z)
    ∧ (∀ d k s, d ∈ merged st → sale_index st ≤ k → sales !! k = Some s →
         (at_time d ≤ timestamp s)%Z).
Proof.
  intros Hss Hso.
  destruct (merge_returns_sorted sales orders Hss Hso)
    as (st & Hrun & _ & [Hasc Hbo Hbs _ _] & _).
  exists st. split; [done|]. split; [done|]. split.
  - intros d k o. apply Hbo.
  - intros d k s. apply Hbs.
Qed.

Lemma merged_sequence_is_a_time_prefix_witness :
  sorted_by_timestamp Sample.sales_dt ∧ sorted_by_timestamp Sample.orders_dt
  ∧ ∃ st, merge Sample.sales_dt Sample.orders_dt = Done st
      ∧ at_time <$> merged st = [10; 10; 20]%Z
      ∧ ascending (at_time <$> merged st).
Proof.
  assert (sorted_by_timestamp Sample.sales_dt) as Hss by solve_sorted.
  assert (sorted_by_timestamp Sample.orders_dt) as Hso by solve_sorted.
  split; [exact Hss|]. split; [exact Hso|].
  destruct (merged_sequence_is_a_time_prefix Sample.sales_dt Sample.orders_dt
              Hss Hso) as (st & Hrun & Hasc & _).
  exists st. split; [exact Hrun|]. split; [|exact Hasc].
  vm_compute in Hrun. injection Hrun as <-. reflexivity.
Defined.
